(** * sci-market: the marketplace models

    A shallow embedding of [backend/apps/marketplace/models.py]: the wallet's
    funds operations, the category tree's [level], the product's stock
    operations, and the [save] overrides of orders and order items, with the
    properties the specification states about them.

    Conventions of the embedding.
    - A Python [int] is a [Z].
    - A [decimal.Decimal] is a finite decimal: an integer coefficient and a
      power-of-ten exponent.  Sum, difference and product are computed as
      the [decimal] module computes them in its default context: the exact
      result, rounded half-even to 28 significant digits, with the
      exponent kept between Emin and Emax; a result too large raises
      [decimal.Overflow], one too small is rounded at the least exponent.
      NaN, the infinities and the sign of zero are left out.
    - A method of a model instance is a computation over the instance and its
      database row; it either returns a value or raises, and what it assigned
      before raising stays assigned.
    - [models.Model.save] is the framework's, called without arguments,
      over SQLite: it refreshes the [auto_now] columns from the clock,
      brings every decimal to the places of its column, and writes the row
      unless the database refuses it: an integer outside 64 bits, a
      negative value in a PositiveIntegerField, an order number another
      order already bears.  The object is never rolled back.
    - Foreign keys are taken to name rows that exist, and the unique values
      that callers assign (slugs, the user of a wallet) to collide with no
      other row; files are taken to be stored already, and no signal
      receiver to be connected to the models.
    - The recursion of [level] is bounded by a number of nested calls, which
      stands for the interpreter's recursion limit without saying where that
      limit lies. *)

From Stdlib Require Import ZArith Lia List Bool Ascii String QArith Qpower Lqa.
From stdpp Require Import gmap strings.
Import ListNotations.

Local Open Scope Z_scope.

(** ** Decimals *)

Module Decimal.

Record t : Type := mk { coeff : Z; exponent : Z }.

(** [Decimal(n)] for an [int] n, as Python converts the integer operand of
    a mixed comparison or product. *)
Definition of_int (n : Z) : t := mk n 0.

Definition zero : t := of_int 0.

(** The coefficient of [d] once it is rewritten at the exponent [e], for
    [e <= exponent d]. *)
Definition scale (d : t) (e : Z) : Z := coeff d * 10 ^ (exponent d - e).

Definition common (x y : t) : Z := Z.min (exponent x) (exponent y).

Definition leb (x y : t) : bool :=
  scale x (common x y) <=? scale y (common x y).

Definition ltb (x y : t) : bool :=
  scale x (common x y) <? scale y (common x y).

Definition geb (x y : t) : bool := leb y x.

(** The exact sum, difference and product, before the context rounds
    them. *)
Definition plus (x y : t) : t :=
  mk (scale x (common x y) + scale y (common x y)) (common x y).

Definition minus (x y : t) : t :=
  mk (scale x (common x y) - scale y (common x y)) (common x y).

Definition times (x y : t) : t :=
  mk (coeff x * coeff y) (exponent x + exponent y).

(** The default context: 28 digits, exponents from Emin to Emax.  Etiny
    is the least exponent of a subnormal result, Etop the greatest exponent
    of a result of full precision. *)
Definition prec : Z := 28.
Definition Emax : Z := 999999.
Definition Emin : Z := -999999.
Definition Etiny : Z := Emin - prec + 1.
Definition Etop : Z := Emax - prec + 1.

(** The number of decimal digits of [n > 0]. *)
Fixpoint count_digits (fuel : nat) (n : Z) : Z :=
  match fuel with
  | O => 1
  | S fuel' => if n <? 10 then 1 else 1 + count_digits fuel' (n / 10)
  end.

Definition digits (n : Z) : Z := count_digits (Z.to_nat (Z.log2 n)) n.

(** [c] without its last [k] digits, rounded half-even (ROUND_HALF_EVEN):
    up when the dropped digits are more than half a unit, or exactly half
    a unit behind an odd digit. *)
Definition half_even (c k : Z) : Z :=
  let p := 10 ^ k in
  let q := Z.abs c / p in
  let r := Z.abs c mod p in
  let up := (p <? 2 * r) || ((2 * r =? p) && Z.odd q) in
  Z.sgn c * (if up then q + 1 else q).

(** The exponent of a zero result. *)
Definition clamp (e : Z) : Z := Z.min (Z.max e Etiny) Emax.

(** What the context makes of an exact result ([Decimal._fix]).  A zero
    keeps its exponent, clamped.  Otherwise [exp_min] is the exponent at
    which the result has [prec] digits: above Etop the result overflows,
    and [None] stands for the [decimal.Overflow] that the context traps;
    below Etiny the result is subnormal and is rounded at Etiny.  A result
    with digits below [exp_min] is rounded there, and a carry out of the
    rounding (99..95 to 100..0) drops one more digit. *)
Definition fix_context (d : t) : option t :=
  if coeff d =? 0 then Some (mk 0 (clamp (exponent d)))
  else
    let exp_min := digits (Z.abs (coeff d)) + exponent d - prec in
    if Etop <? exp_min then None
    else
      let exp_min := Z.max exp_min Etiny in
      if exponent d <? exp_min then
        let q := half_even (coeff d) (exp_min - exponent d) in
        if Z.abs q =? 10 ^ prec then
          if Etop <? exp_min + 1 then None
          else Some (mk (q / 10) (exp_min + 1))
        else Some (mk q exp_min)
      else Some d.

Definition add (x y : t) : option t := fix_context (plus x y).

Definition sub (x y : t) : option t := fix_context (minus x y).

Definition mul (x y : t) : option t := fix_context (times x y).

(** [d.quantize(Decimal(1).scaleb(-places))]: [d] at the exponent
    [-places], padded with zeros or rounded half-even. *)
Definition quantize (places : Z) (d : t) : t :=
  if - places <=? exponent d then
    mk (coeff d * 10 ^ (exponent d + places)) (- places)
  else
    mk (half_even (coeff d) (- places - exponent d)) (- places).

(** The number a decimal denotes. *)
Definition value (d : t) : Q := inject_Z (coeff d) * inject_Z 10 ^ exponent d.

Definition le (x y : t) : Prop := leb x y = true.
Definition lt (x y : t) : Prop := ltb x y = true.

End Decimal.

Declare Scope decimal_scope.
Delimit Scope decimal_scope with D.
Bind Scope decimal_scope with Decimal.t.

Infix "<=?" := Decimal.leb : decimal_scope.
Infix "<?" := Decimal.ltb : decimal_scope.
Infix ">=?" := Decimal.geb (at level 70) : decimal_scope.
Infix "<=" := Decimal.le : decimal_scope.
Infix "<" := Decimal.lt : decimal_scope.
Infix "+" := Decimal.add : decimal_scope.
Infix "-" := Decimal.sub : decimal_scope.
Infix "*" := Decimal.mul : decimal_scope.
Notation "0" := Decimal.zero : decimal_scope.

(** ** Method calls: state, results and exceptions *)

Inductive Exception : Type :=
| ValueError (msg : string)
| RecursionError
| DoesNotExist
| AttributeError
| Overflow
| InvalidOperation
| OverflowError
| IntegrityError.

(** The error the funds operations raise on a non-positive amount. *)
Definition InvalidAmount : Exception := ValueError "Amount must be positive".

Inductive Outcome (A : Type) : Type :=
| Returns (a : A)
| Raises (e : Exception).

Arguments Returns {A} a.
Arguments Raises {A} e.

Definition Timestamp : Type := Z.

(** What a call reads from its surroundings: the clock ([timezone.now()]),
    the operating system's random bytes ([os.urandom(16)], as the
    big-endian integer they spell), and the order numbers that the other
    rows of the order table bear. *)
Record Env : Type := {
  now : Timestamp;
  urandom16 : Z;
  order_numbers : gset string
}.

(** A model instance as a method sees it: the Python object, and the row
    the database holds for it, if it has been inserted. *)
Record Stored (T : Type) : Type := { self : T; row : option T }.

Arguments self {T} _.
Arguments row {T} _.

Definition M (S A : Type) : Type := Env -> S -> Outcome A * S.

Definition ret {S A : Type} (a : A) : M S A := fun _ s => (Returns a, s).

Definition raise {S A : Type} (e : Exception) : M S A :=
  fun _ s => (Raises e, s).

Definition bind {S A B : Type} (m : M S A) (k : A -> M S B) : M S B :=
  fun env s =>
    match m env s with
    | (Returns a, s') => k a env s'
    | (Raises e, s') => (Raises e, s')
    end.

Definition get {S : Type} : M S S := fun _ s => (Returns s, s).

Definition modify {S : Type} (f : S -> S) : M S unit :=
  fun _ s => (Returns tt, f s).

Definition ask {S : Type} : M S Env := fun env s => (Returns env, s).

(** What a call gave back, and the state it left. *)
Definition result {S A : Type} (r : Outcome A * S) : Outcome A := fst r.
Definition after {S A : Type} (r : Outcome A * S) : S := snd r.

Declare Scope method_scope.
Delimit Scope method_scope with method.

Notation "x <- m ;; k" := (bind m (fun x => k))
  (at level 100, m at next level, right associativity) : method_scope.
Notation "m ;; k" := (bind m (fun _ => k))
  (at level 100, right associativity) : method_scope.

(** An assignment to an attribute of [self]. *)
Definition assign {T : Type} (f : T -> T) : M (Stored T) unit :=
  modify (fun s => {| self := f (self s); row := row s |}).

(** Reading [self]. *)
Definition this {T : Type} : M (Stored T) T :=
  fun _ s => (Returns (self s), s).

(** The result of an arithmetic operation on decimals: its value, or the
    [decimal.Overflow] it raises. *)
Definition arith {S : Type} (r : option Decimal.t) : M S Decimal.t :=
  match r with
  | Some d => ret d
  | None => raise Overflow
  end.

(** ** The framework's [Model.save], over SQLite *)

(** A [DecimalField(max_digits, decimal_places)] on its way to the
    database: the value is quantized to the places of the column in a
    context of [max_digits] digits, which raises when the result has more
    digits than that. *)
Definition decimal_column (max_digits places : Z) (d : Decimal.t)
  : Outcome Decimal.t :=
  let q := Decimal.quantize places d in
  if Z.abs (Decimal.coeff q) <? 10 ^ max_digits then Returns q
  else Raises InvalidOperation.

(** An [int] that SQLite can store: a signed 64-bit integer. *)
Definition sqlite_integer (n : Z) : bool := (- 2 ^ 63 <=? n) && (n <? 2 ^ 63).

(** The columns declared [PositiveIntegerField] (or its small variant):
    binding a value outside 64 bits raises [OverflowError] before the
    statement runs; the statement fails the column's CHECK (>= 0) with
    [IntegrityError]. *)
Definition positive_integer_columns (values : list Z) : option Exception :=
  if forallb sqlite_integer values then
    if forallb (Z.leb 0) values then None else Some IntegrityError
  else Some OverflowError.

(** What a model tells [save]:
    - [pre_save adding now o], the instance after the [pre_save] hook of
      every field: an [auto_now] column takes the clock reading on every
      save, an [auto_now_add] column only when the row is being inserted
      (the hooks of one save are taken to read the same time);
    - [prepare o], the values as they are handed to the database, every
      decimal at the places of its column, or the error the preparation
      raises;
    - [execute env r], the error the database answers the statement with,
      if any. *)
Class Model (T : Type) : Type := {
  pre_save : bool -> Timestamp -> T -> T;
  prepare : T -> Outcome T;
  execute : Env -> T -> option Exception
}.

Definition adding {T : Type} (s : Stored T) : bool :=
  match row s with None => true | Some _ => false end.

(** An UPDATE runs every [pre_save] hook and then prepares the values; an
    INSERT hooks and prepares field by field in the order of declaration,
    and in the models of this file the decimal columns are declared before
    the timestamps: a decimal that does not fit its column is met before
    any timestamp is refreshed.  The object is never rolled back. *)
Definition Model_save {T : Type} `{Model T} : M (Stored T) unit :=
  fun env s =>
    let o := pre_save (adding s) (now env) (self s) in
    match prepare o with
    | Raises e =>
        (Raises e, if adding s then s else {| self := o; row := row s |})
    | Returns r =>
        match execute env r with
        | Some e => (Raises e, {| self := o; row := row s |})
        | None => (Returns tt, {| self := o; row := Some r |})
        end
    end.

(** The error the storage layer answers the write of [o] with, if any. *)
Definition refusal {T : Type} `{Model T} (env : Env) (o : T)
  : option Exception :=
  match prepare o with
  | Raises e => Some e
  | Returns r => execute env r
  end.

(** ** Wallet *)

Module Wallet.

Record t : Type := mk {
  user : Z;
  balance : Decimal.t;
  currency : string;
  updated_at : option Timestamp
}.

Definition set_balance (b : Decimal.t) (w : t) : t :=
  mk (user w) b (currency w) (updated_at w).

(** [balance] is a [DecimalField(max_digits=12, decimal_places=2)].  The
    [user] is a one-to-one key, taken to name a user who has no other
    wallet: the database then has nothing to refuse. *)
#[global] Instance model : Model t :=
  {| pre_save := fun _ clock w =>
       mk (user w) (balance w) (currency w) (Some clock);
     prepare := fun w =>
       match decimal_column 12 2 (balance w) with
       | Returns b => Returns (set_balance b w)
       | Raises e => Raises e
       end;
     execute := fun _ _ => None |}.

Definition save : M (Stored t) unit := Model_save.

Local Open Scope method_scope.

Definition can_afford (amount : Decimal.t) : M (Stored t) bool :=
  w <- this ;;
  ret (balance w >=? amount)%D.

Definition add_funds (amount : Decimal.t) : M (Stored t) unit :=
  if (amount <=? 0)%D then
    raise (ValueError "Amount must be positive")
  else
    w <- this ;;
    b <- arith (balance w + amount)%D ;;
    assign (set_balance b) ;;
    save.

Definition deduct_funds (amount : Decimal.t) : M (Stored t) bool :=
  if (amount <=? 0)%D then
    raise (ValueError "Amount must be positive")
  else
    affordable <- can_afford amount ;;
    if negb affordable then
      ret false
    else
      w <- this ;;
      b <- arith (balance w - amount)%D ;;
      assign (set_balance b) ;;
      save ;;
      ret true.

(** A caller's use of the wallet: one of the three methods, its result
    dropped and its exception, if any, caught. *)
Inductive Call : Type :=
| CanAfford (amount : Decimal.t)
| AddFunds (amount : Decimal.t)
| DeductFunds (amount : Decimal.t).

Definition perform (c : Call) : M (Stored t) unit :=
  match c with
  | CanAfford amount => can_afford amount ;; ret tt
  | AddFunds amount => add_funds amount
  | DeductFunds amount => deduct_funds amount ;; ret tt
  end.

Fixpoint run (calls : list (Env * Call)) (s : Stored t) : Stored t :=
  match calls with
  | [] => s
  | (env, c) :: rest => run rest (after (perform c env s))
  end.

End Wallet.

(** The wallets of the scenarios. *)
Definition dec (coefficient exponent : Z) : Decimal.t :=
  Decimal.mk coefficient exponent.

Definition wallet_of (b : Decimal.t) : Stored Wallet.t :=
  {| self := Wallet.mk 1 b "USD" None; row := None |}.

Definition noon : Env :=
  {| now := 1700000000; urandom16 := 0; order_numbers := ∅ |}.

(** An amount of [c] hundredths: the form of every value that a monetary
    column holds. *)
Definition cents (c : Z) : Decimal.t := Decimal.mk c (-2).

(** ** Category *)

Module Category.

Record t : Type := mk {
  name : string;
  slug : string;
  description : string;
  parent_id : option Z;
  is_active : bool;
  order : Z;
  created_at : option Timestamp;
  updated_at : option Timestamp
}.

Local Open Scope method_scope.

(** [self.parent]: [None] when the foreign key is unset, otherwise the
    category the key names, fetched from the table. *)
Definition parent (c : t) : M (gmap Z t) (option t) :=
  match parent_id c with
  | None => ret None
  | Some pk =>
      table <- get ;;
      match table !! pk with
      | Some p => ret (Some p)
      | None => raise DoesNotExist
      end
  end.

Definition is_root (c : t) : M (gmap Z t) bool :=
  p <- parent c ;;
  ret (match p with None => true | Some _ => false end).

(** [depth] bounds how deep the calls of [level] may nest before the
    interpreter gives up.  It counts nested calls of [level], not frames:
    what one call costs the interpreter's stack (the property, [is_root],
    the descriptor of the foreign key and the query behind it) is not
    modelled, so the embedding says that the recursion is bounded, not
    where the bound lies. *)
Fixpoint level (depth : nat) (c : t) : M (gmap Z t) Z :=
  match depth with
  | O => raise RecursionError
  | S depth' =>
      root <- is_root c ;;
      if root then
        ret 0
      else
        p <- parent c ;;
        match p with
        | Some p => n <- level depth' p ;; ret (n + 1)
        | None => raise AttributeError
        end
  end.

(** The parent chain of a category ends at a root after [n] steps. *)
Inductive chain (table : gmap Z t) : t -> nat -> Prop :=
| chain_root c :
    parent_id c = None -> chain table c O
| chain_child c pk p n :
    parent_id c = Some pk -> table !! pk = Some p -> chain table p n ->
    chain table c (S n).

End Category.

(** The categories of the scenarios: a root, its child and its
    grandchild, stored under the keys 1, 2 and 3. *)
Definition category_of (label : string) (parent : option Z) : Category.t :=
  Category.mk label label label parent true 0 None None.

Definition catalogue : gmap Z Category.t :=
  <[1 := category_of "science" None]>
    (<[2 := category_of "physics" (Some 1)]>
       (<[3 := category_of "optics" (Some 2)]> ∅)).

(** ** Product *)

Module Product.

Record t : Type := mk {
  seller : Z;
  title : string;
  slug : string;
  description : string;
  category : Z;
  price : Decimal.t;
  stock : Z;
  file_path : string;
  file_size : Z;
  preview_image : option string;
  is_active : bool;
  is_featured : bool;
  download_count : Z;
  created_at : option Timestamp;
  updated_at : option Timestamp
}.

Definition set_stock (n : Z) (p : t) : t :=
  mk (seller p) (title p) (slug p) (description p) (category p) (price p)
     n (file_path p) (file_size p) (preview_image p) (is_active p)
     (is_featured p) (download_count p) (created_at p) (updated_at p).

Definition set_price (d : Decimal.t) (p : t) : t :=
  mk (seller p) (title p) (slug p) (description p) (category p) d
     (stock p) (file_path p) (file_size p) (preview_image p) (is_active p)
     (is_featured p) (download_count p) (created_at p) (updated_at p).

(** [price] is a [DecimalField(max_digits=10, decimal_places=2)]; [stock],
    [file_size] and [download_count] are [PositiveIntegerField]s. *)
#[global] Instance model : Model t :=
  {| pre_save := fun adding clock p =>
       mk (seller p) (title p) (slug p) (description p) (category p)
          (price p) (stock p) (file_path p) (file_size p)
          (preview_image p) (is_active p) (is_featured p)
          (download_count p)
          (if adding then Some clock else created_at p) (Some clock);
     prepare := fun p =>
       match decimal_column 10 2 (price p) with
       | Returns d => Returns (set_price d p)
       | Raises e => Raises e
       end;
     execute := fun _ p =>
       positive_integer_columns [stock p; file_size p; download_count p] |}.

Definition save : M (Stored t) unit := Model_save.

Local Open Scope method_scope.

Definition is_available (p : t) : bool := is_active p && (0 <? stock p).

Definition decrease_stock (quantity : Z) : M (Stored t) bool :=
  p <- this ;;
  if stock p >=? quantity then
    assign (fun p => set_stock (stock p - quantity) p) ;;
    save ;;
    ret true
  else
    ret false.

Definition increase_stock (quantity : Z) : M (Stored t) unit :=
  assign (fun p => set_stock (stock p + quantity) p) ;;
  save.

(** A caller's use of the stock: one of the two methods, its result
    dropped and its exception, if any, caught. *)
Inductive Call : Type :=
| Decrease (quantity : Z)
| Increase (quantity : Z).

Definition perform (c : Call) : M (Stored t) unit :=
  match c with
  | Decrease quantity => decrease_stock quantity ;; ret tt
  | Increase quantity => increase_stock quantity
  end.

Fixpoint run (calls : list (Env * Call)) (s : Stored t) : Stored t :=
  match calls with
  | [] => s
  | (env, c) :: rest => run rest (after (perform c env s))
  end.

End Product.

(** The products of the scenarios: one not yet inserted, one whose row
    holds what the object holds. *)
Definition dataset (n : Z) : Product.t :=
  Product.mk 1 "Dataset" "dataset" "A dataset" 1 (dec 999 (-2)) n
             "products/dataset.zip" 1024 None true false 0 None None.

Definition product_of (n : Z) : Stored Product.t :=
  {| self := dataset n; row := None |}.

Definition stocked (n : Z) : Stored Product.t :=
  {| self := dataset n; row := Some (dataset n) |}.

(** ** The [uuid] module and the string methods [Order.save] uses *)

Module UUID.

(** [uuid.uuid4()]: sixteen random bytes with the variant and version
    bits of RFC 4122 forced. *)
Definition uuid4_of (random : Z) : Z :=
  let i := random mod 2 ^ 128 in
  let i := Z.land i (Z.lnot (Z.shiftl 0xc000 48)) in
  let i := Z.lor i (Z.shiftl 0x8000 48) in
  let i := Z.land i (Z.lnot (Z.shiftl 0xf000 64)) in
  Z.lor i (Z.shiftl 4 76).

Definition uuid4 {S : Type} : M S Z :=
  bind ask (fun env => ret (uuid4_of (urandom16 env))).

Definition hexdigit (d : Z) : ascii :=
  match d with
  | 0 => "0" | 1 => "1" | 2 => "2" | 3 => "3"
  | 4 => "4" | 5 => "5" | 6 => "6" | 7 => "7"
  | 8 => "8" | 9 => "9" | 10 => "a" | 11 => "b"
  | 12 => "c" | 13 => "d" | 14 => "e" | _ => "f"
  end%char.

(** ['%0wx' % i]: the [width] low hexadecimal digits of [i], the most
    significant first. *)
Fixpoint format_hex (width : nat) (i : Z) : string :=
  match width with
  | O => EmptyString
  | S w =>
      String (hexdigit (Z.land (Z.shiftr i (4 * Z.of_nat w)) 15))
             (format_hex w i)
  end.

(** The [hex] property of a UUID. *)
Definition hex (i : Z) : string := format_hex 32 i.

End UUID.

Module Str.

Definition upper_char (c : ascii) : ascii :=
  let n := nat_of_ascii c in
  if ((97 <=? n) && (n <=? 122))%nat then ascii_of_nat (n - 32) else c.

(** [s.upper()] *)
Fixpoint upper (s : string) : string :=
  match s with
  | EmptyString => EmptyString
  | String c rest => String (upper_char c) (upper rest)
  end.

(** [s[:n]] *)
Definition prefix (n : nat) (s : string) : string := substring 0 n s.

(** [not s] *)
Definition falsy (s : string) : bool :=
  match s with EmptyString => true | String _ _ => false end.

Definition is_upper_hex (c : ascii) : bool :=
  existsb (Ascii.eqb c) (list_ascii_of_string "0123456789ABCDEF").

Fixpoint all (p : ascii -> bool) (s : string) : bool :=
  match s with
  | EmptyString => true
  | String c rest => p c && all p rest
  end.

(** [s in values], for a list of strings. *)
Definition among (s : string) (values : list string) : bool :=
  existsb (String.eqb s) values.

End Str.

(** ** Order *)

Module Order.

(** The values of [Order.Status].  The column is a [CharField]: its
    choices are declared, and nothing in [save] holds a status to them. *)
Module Status.

Definition PENDING : string := "pending".
Definition PAID : string := "paid".
Definition SHIPPED : string := "shipped".
Definition DELIVERED : string := "delivered".
Definition CANCELED : string := "canceled".
Definition REFUNDED : string := "refunded".

End Status.

Record t : Type := mk {
  buyer : Z;
  order_number : string;
  total_price : Decimal.t;
  status : string;
  notes : string;
  created_at : option Timestamp;
  updated_at : option Timestamp
}.

Definition set_order_number (n : string) (o : t) : t :=
  mk (buyer o) n (total_price o) (status o) (notes o)
     (created_at o) (updated_at o).

Definition set_total_price (d : Decimal.t) (o : t) : t :=
  mk (buyer o) (order_number o) d (status o) (notes o)
     (created_at o) (updated_at o).

(** [total_price] is a [DecimalField(max_digits=10, decimal_places=2)];
    [order_number] is declared unique. *)
#[global] Instance model : Model t :=
  {| pre_save := fun adding clock o =>
       mk (buyer o) (order_number o) (total_price o) (status o) (notes o)
          (if adding then Some clock else created_at o) (Some clock);
     prepare := fun o =>
       match decimal_column 10 2 (total_price o) with
       | Returns d => Returns (set_total_price d o)
       | Raises e => Raises e
       end;
     execute := fun env o =>
       if bool_decide (order_number o ∈ order_numbers env)
       then Some IntegrityError else None |}.

Local Open Scope method_scope.

Definition save : M (Stored t) unit :=
  o <- this ;;
  (if Str.falsy (order_number o) then
     u <- UUID.uuid4 ;;
     assign (set_order_number
               (String.append "ORD-" (Str.upper (Str.prefix 8 (UUID.hex u)))))
   else
     ret tt) ;;
  Model_save.

Definition can_cancel (o : t) : bool :=
  Str.among (status o) [Status.PENDING; Status.PAID].

Definition can_refund (o : t) : bool :=
  Str.among (status o) [Status.PAID; Status.SHIPPED; Status.DELIVERED].

(** Saving again and again, once per clock reading and random draw. *)
Fixpoint save_all (envs : list Env) (s : Stored t) : Stored t :=
  match envs with
  | [] => s
  | env :: rest => save_all rest (after (save env s))
  end.

End Order.

(** The orders of the scenarios. *)
Definition order_of (number : string) : Stored Order.t :=
  {| self := Order.mk 1 number (dec 5997 (-2)) Order.Status.PENDING
                      "Deliver soon" None None;
     row := None |}.

Definition draw (clock : Timestamp) (random : Z) : Env :=
  {| now := clock; urandom16 := random; order_numbers := ∅ |}.

(** A clock reading and a random draw, when other orders bear the
    [numbers]. *)
Definition taken (clock : Timestamp) (random : Z) (numbers : list string)
  : Env :=
  {| now := clock; urandom16 := random; order_numbers := list_to_set numbers |}.

(** ** OrderItem *)

Module OrderItem.

Record t : Type := mk {
  order : Z;
  product : Z;
  quantity : Z;
  price : Decimal.t;
  total_price : Decimal.t
}.

Definition set_total_price (d : Decimal.t) (i : t) : t :=
  mk (order i) (product i) (quantity i) (price i) d.

(** [quantity] is a [PositiveIntegerField]; [price] and [total_price] are
    [DecimalField(max_digits=10, decimal_places=2)]s. *)
#[global] Instance model : Model t :=
  {| pre_save := fun _ _ i => i;
     prepare := fun i =>
       match decimal_column 10 2 (price i) with
       | Returns p =>
           match decimal_column 10 2 (total_price i) with
           | Returns d => Returns (mk (order i) (product i) (quantity i) p d)
           | Raises e => Raises e
           end
       | Raises e => Raises e
       end;
     execute := fun _ i => positive_integer_columns [quantity i] |}.

Local Open Scope method_scope.

Definition save : M (Stored t) unit :=
  i <- this ;;
  total <- arith (Decimal.of_int (quantity i) * price i)%D ;;
  assign (set_total_price total) ;;
  Model_save.

End OrderItem.

(** The order lines of the scenarios. *)
Definition line (quantity : Z) (price total : Decimal.t)
  : Stored OrderItem.t :=
  {| self := OrderItem.mk 1 1 quantity price total; row := None |}.

(** ** Vocabulary of the properties *)

(** The first four of the sixteen random bytes, as a number. *)
Definition first_four_bytes (random : Z) : Z := (random mod 2 ^ 128) / 2 ^ 96.

(** The value of an upper-case hexadecimal digit. *)
Definition hex_value (c : ascii) : Z :=
  let n := Z.of_nat (nat_of_ascii c) in
  if (48 <=? n) && (n <=? 57) then n - 48 else n - 55.

(** The order number that a first save assigns on the random draw of
    [env]. *)
Definition generated_number (env : Env) : string :=
  String.append "ORD-"
    (Str.upper (Str.prefix 8 (UUID.hex (UUID.uuid4_of (urandom16 env))))).

(** The exponents at which the context keeps a result of at most 28
    digits as it is. *)
Definition in_range (e : Z) : Prop := Decimal.Etiny <= e <= Decimal.Etop.

(** The stock of the row, where there is a row, is not negative. *)
Definition stored_stock_ok (s : Stored Product.t) : Prop :=
  match row s with
  | Some r => 0 <= Product.stock r
  | None => True
  end.

(** The state in which a funds operation calls [save]: the balance
    assigned, the row as it was. *)
Definition assigned (b : Decimal.t) (s : Stored Wallet.t) : Stored Wallet.t :=
  {| self := Wallet.set_balance b (self s); row := row s |}.

(** The state in which a stock operation calls [save]. *)
Definition restocked (n : Z) (s : Stored Product.t) : Stored Product.t :=
  {| self := Product.set_stock n (self s); row := row s |}.

(** The order item with the total a caller supplied, or the one [save]
    assigns. *)
Definition totalled (d : Decimal.t) (s : Stored OrderItem.t)
  : Stored OrderItem.t :=
  {| self := OrderItem.set_total_price d (self s); row := row s |}.

(** * Properties *)

(** ** Decimal comparisons *)

Lemma pow10_pos (k : Z) : 0 <= k -> 0 < 10 ^ k.
Proof. intros Hk. apply Z.pow_pos_nonneg; lia. Qed.

Lemma scale_factor_pos_l (x y : Decimal.t) :
  0 < 10 ^ (Decimal.exponent x - Decimal.common x y).
Proof. apply pow10_pos. unfold Decimal.common. lia. Qed.

Lemma scale_factor_pos_r (x y : Decimal.t) :
  0 < 10 ^ (Decimal.exponent y - Decimal.common x y).
Proof. apply pow10_pos. unfold Decimal.common. lia. Qed.

Lemma scale_zero (e : Z) : Decimal.scale Decimal.zero e = 0.
Proof. reflexivity. Qed.

(** Comparing with the integer 0 looks at the sign of the coefficient. *)
Lemma leb_zero_coeff (d : Decimal.t) :
  (d <=? 0)%D = (Decimal.coeff d <=? 0).
Proof.
  unfold Decimal.leb. rewrite scale_zero. unfold Decimal.scale.
  pose proof (scale_factor_pos_l d Decimal.zero) as Hp.
  destruct (Z.leb_spec (Decimal.coeff d) 0);
    [apply Z.leb_le | apply Z.leb_gt]; nia.
Qed.

Lemma lt_zero_coeff (d : Decimal.t) : (0 < d)%D <-> 0 < Decimal.coeff d.
Proof.
  unfold Decimal.lt, Decimal.ltb. rewrite scale_zero. unfold Decimal.scale.
  pose proof (scale_factor_pos_r Decimal.zero d) as Hp.
  rewrite Z.ltb_lt. split; nia.
Qed.

Lemma le_zero_coeff (d : Decimal.t) : (0 <= d)%D <-> 0 <= Decimal.coeff d.
Proof.
  unfold Decimal.le, Decimal.leb. rewrite scale_zero. unfold Decimal.scale.
  pose proof (scale_factor_pos_r Decimal.zero d) as Hp.
  rewrite Z.leb_le. split; nia.
Qed.

(** An amount is positive exactly when the guard [amount <= 0] is false. *)
Lemma guard_false_iff (a : Decimal.t) : (a <=? 0)%D = false <-> (0 < a)%D.
Proof. rewrite leb_zero_coeff, lt_zero_coeff. apply Z.leb_gt. Qed.

(** [x < y] and [y <= x] exclude each other and one of them holds. *)
Lemma ltb_negb_leb (x y : Decimal.t) : (x <? y)%D = negb (y <=? x)%D.
Proof.
  unfold Decimal.ltb, Decimal.leb, Decimal.common.
  rewrite (Z.min_comm (Decimal.exponent y)). apply Z.ltb_antisym.
Qed.

(** ** Decimals denote the numbers they should

    The comparisons are those of the denoted numbers, and the exact sum,
    difference and product denote the sum, difference and product. *)

Lemma ten_nonzero : ~ inject_Z 10 == 0%Q.
Proof. discriminate. Qed.

Lemma ten_power_pos (e : Z) : (0 < inject_Z 10 ^ e)%Q.
Proof. apply Qpower_0_lt. reflexivity. Qed.

Lemma scale_value (d : Decimal.t) (e : Z) :
  e <= Decimal.exponent d ->
  (inject_Z (Decimal.scale d e) * inject_Z 10 ^ e == Decimal.value d)%Q.
Proof.
  intros He. unfold Decimal.scale, Decimal.value.
  rewrite inject_Z_mult, Zpower_Qpower by lia.
  rewrite <- Qmult_assoc, <- Qpower_plus by apply ten_nonzero.
  replace (Decimal.exponent d - e + e) with (Decimal.exponent d) by lia.
  reflexivity.
Qed.

Lemma common_le_l (x y : Decimal.t) : Decimal.common x y <= Decimal.exponent x.
Proof. unfold Decimal.common. lia. Qed.

Lemma common_le_r (x y : Decimal.t) : Decimal.common x y <= Decimal.exponent y.
Proof. unfold Decimal.common. lia. Qed.

Lemma le_value (x y : Decimal.t) :
  (x <= y)%D <-> (Decimal.value x <= Decimal.value y)%Q.
Proof.
  unfold Decimal.le, Decimal.leb.
  rewrite <- (scale_value x _ (common_le_l x y)).
  rewrite <- (scale_value y _ (common_le_r x y)).
  rewrite Qmult_le_r by apply ten_power_pos.
  rewrite <- Zle_Qle. apply Z.leb_le.
Qed.

Lemma lt_value (x y : Decimal.t) :
  (x < y)%D <-> (Decimal.value x < Decimal.value y)%Q.
Proof.
  unfold Decimal.lt, Decimal.ltb.
  rewrite <- (scale_value x _ (common_le_l x y)).
  rewrite <- (scale_value y _ (common_le_r x y)).
  rewrite Qmult_lt_r by apply ten_power_pos.
  rewrite <- Zlt_Qlt. apply Z.ltb_lt.
Qed.

Lemma plus_value (x y : Decimal.t) :
  (Decimal.value (Decimal.plus x y) == Decimal.value x + Decimal.value y)%Q.
Proof.
  rewrite <- (scale_value x _ (common_le_l x y)).
  rewrite <- (scale_value y _ (common_le_r x y)).
  unfold Decimal.value, Decimal.plus. simpl.
  rewrite inject_Z_plus. ring.
Qed.

Lemma minus_value (x y : Decimal.t) :
  (Decimal.value (Decimal.minus x y) == Decimal.value x - Decimal.value y)%Q.
Proof.
  rewrite <- (scale_value x _ (common_le_l x y)).
  rewrite <- (scale_value y _ (common_le_r x y)).
  unfold Decimal.value, Decimal.minus. simpl.
  unfold Z.sub. rewrite inject_Z_plus, inject_Z_opp. ring.
Qed.

Lemma times_value (x y : Decimal.t) :
  (Decimal.value (Decimal.times x y) == Decimal.value x * Decimal.value y)%Q.
Proof.
  unfold Decimal.value, Decimal.times. simpl.
  rewrite inject_Z_mult, Qpower_plus by apply ten_nonzero. ring.
Qed.

Lemma value_zero : (Decimal.value 0%D == 0)%Q.
Proof. reflexivity. Qed.

Lemma le_refl (x : Decimal.t) : (x <= x)%D.
Proof. apply le_value. apply Qle_refl. Qed.

(** ** The digits of a coefficient *)

Lemma count_digits_spec (fuel : nat) (n : Z) :
  0 < n < 2 ^ (Z.of_nat fuel + 1) ->
  1 <= Decimal.count_digits fuel n /\
  10 ^ (Decimal.count_digits fuel n - 1) <= n
  < 10 ^ Decimal.count_digits fuel n.
Proof.
  revert n. induction fuel as [| fuel IH]; intros n Hn.
  - simpl in *. change (2 ^ 1) with 2 in Hn. lia.
  - cbn [Decimal.count_digits].
    destruct (Z.ltb_spec n 10) as [Hlt | Hge].
    + change (10 ^ (1 - 1)) with 1. change (10 ^ 1) with 10. lia.
    + assert (Hdiv : 0 < n / 10 < 2 ^ (Z.of_nat fuel + 1)).
      { split; [apply Z.div_str_pos; lia |].
        apply Z.div_lt_upper_bound; [lia |].
        replace (Z.of_nat (S fuel) + 1) with (Z.succ (Z.of_nat fuel + 1))
          in Hn by lia.
        rewrite Z.pow_succ_r in Hn by lia. lia. }
      destruct (IH (n / 10) Hdiv) as [H1 [Hlo Hhi]].
      set (d := Decimal.count_digits fuel (n / 10)) in *.
      replace (1 + d - 1) with (Z.succ (d - 1)) by lia.
      replace (1 + d) with (Z.succ d) by lia.
      rewrite !Z.pow_succ_r by lia.
      pose proof (Z.div_mod n 10 ltac:(lia)) as Hn10.
      pose proof (Z.mod_pos_bound n 10 ltac:(lia)) as Hmod.
      lia.
Qed.

(** [digits n] is the number of decimal digits of [n]. *)
Lemma digits_spec (n : Z) :
  0 < n ->
  1 <= Decimal.digits n /\
  10 ^ (Decimal.digits n - 1) <= n < 10 ^ Decimal.digits n.
Proof.
  intros Hn. apply count_digits_spec. split; [exact Hn |].
  rewrite Z2Nat.id by apply Z.log2_nonneg.
  replace (Z.log2 n + 1) with (Z.succ (Z.log2 n)) by lia.
  apply Z.log2_spec. exact Hn.
Qed.

Lemma digits_le (n k : Z) : 0 < n < 10 ^ k -> Decimal.digits n <= k.
Proof.
  intros [Hn Hk]. destruct (digits_spec n Hn) as [H1 [Hlo _]].
  destruct (Z_le_gt_dec (Decimal.digits n) k) as [Hle | Hgt]; [exact Hle |].
  assert (Hpow : 10 ^ k <= 10 ^ (Decimal.digits n - 1)).
  { apply Z.pow_le_mono_r; lia. }
  lia.
Qed.

(** ** What the context's rounding keeps *)

(** A result of at most 28 digits, at an exponent within the range, is
    neither rounded nor refused. *)
Lemma fix_context_exact (d : Decimal.t) :
  Z.abs (Decimal.coeff d) < 10 ^ 28 -> in_range (Decimal.exponent d) ->
  Decimal.fix_context d = Some d.
Proof.
  intros Hd [Hlo Hhi]. unfold Decimal.fix_context.
  destruct (Z.eqb_spec (Decimal.coeff d) 0) as [Hz | Hnz].
  - destruct d as [c e]. cbn [Decimal.coeff Decimal.exponent] in *.
    subst c. unfold Decimal.clamp. do 2 f_equal.
    unfold Decimal.Etiny, Decimal.Etop, Decimal.Emax, Decimal.Emin,
      Decimal.prec in *. lia.
  - cbv zeta.
    assert (Hdig : Decimal.digits (Z.abs (Decimal.coeff d)) <= 28)
      by (apply digits_le; lia).
    unfold Decimal.prec at 1 2.
    destruct (Z.ltb_spec Decimal.Etop
                (Decimal.digits (Z.abs (Decimal.coeff d))
                 + Decimal.exponent d - 28)) as [Hover | _]; [lia |].
    destruct (Z.ltb_spec (Decimal.exponent d)
                (Z.max (Decimal.digits (Z.abs (Decimal.coeff d))
                        + Decimal.exponent d - 28) Decimal.Etiny))
      as [Hround | _]; [lia | reflexivity].
Qed.

Lemma half_even_nonneg (c k : Z) : 0 <= c -> 0 <= Decimal.half_even c k.
Proof.
  intros Hc. unfold Decimal.half_even.
  assert (Hq : 0 <= Z.abs c / 10 ^ k)
    by (apply Z_div_nonneg_nonneg; [lia | apply Z.pow_nonneg; lia]).
  apply Z.sgn_nonneg in Hc.
  destruct ((10 ^ k <? 2 * (Z.abs c mod 10 ^ k))
            || ((2 * (Z.abs c mod 10 ^ k) =? 10 ^ k)
                && Z.odd (Z.abs c / 10 ^ k))); nia.
Qed.

(** Rounding never turns a result that is not negative into a negative
    one. *)
Lemma fix_context_nonneg (d r : Decimal.t) :
  0 <= Decimal.coeff d -> Decimal.fix_context d = Some r ->
  0 <= Decimal.coeff r.
Proof.
  intros Hd. unfold Decimal.fix_context.
  destruct (Decimal.coeff d =? 0).
  { intros [= <-]. simpl. lia. }
  cbv zeta.
  destruct (Decimal.Etop <? _); [discriminate |].
  destruct (Decimal.exponent d <? _).
  - set (q := Decimal.half_even _ _).
    assert (Hq : 0 <= q) by (apply half_even_nonneg; exact Hd).
    destruct (Z.abs q =? 10 ^ Decimal.prec).
    + destruct (Decimal.Etop <? _); [discriminate |].
      intros [= <-]. simpl. apply Z.div_pos; lia.
    + intros [= <-]. exact Hq.
  - intros [= <-]. exact Hd.
Qed.

Lemma sub_nonneg (x y r : Decimal.t) :
  (y <= x)%D -> (x - y)%D = Some r -> (0 <= r)%D.
Proof.
  unfold Decimal.le at 1. unfold Decimal.leb, Decimal.common.
  rewrite (Z.min_comm (Decimal.exponent y)), Z.leb_le. intros H Hr.
  apply le_zero_coeff. apply (fix_context_nonneg _ r) in Hr; [exact Hr |].
  unfold Decimal.minus, Decimal.common. simpl. lia.
Qed.

Lemma add_nonneg (x y r : Decimal.t) :
  (0 <= x)%D -> (0 < y)%D -> (x + y)%D = Some r -> (0 <= r)%D.
Proof.
  rewrite !le_zero_coeff, lt_zero_coeff. intros Hx Hy Hr.
  apply (fix_context_nonneg _ r) in Hr; [exact Hr |].
  unfold Decimal.plus, Decimal.scale. simpl.
  pose proof (scale_factor_pos_l x y). pose proof (scale_factor_pos_r x y).
  nia.
Qed.

(** A decimal less itself is zero, whatever its digits: no rounding and
    no overflow. *)
Lemma sub_self (x : Decimal.t) :
  (x - x)%D = Some (Decimal.mk 0 (Decimal.clamp (Decimal.exponent x))).
Proof.
  unfold Decimal.sub, Decimal.fix_context, Decimal.minus, Decimal.common.
  cbn [Decimal.coeff Decimal.exponent].
  rewrite Z.sub_diag, Z.min_id. reflexivity.
Qed.

(** ** The columns *)

Lemma half_even_zero (k : Z) : Decimal.half_even 0 k = 0.
Proof. reflexivity. Qed.

(** Zero fits every decimal column. *)
Lemma decimal_column_zero (max_digits places e : Z) :
  0 <= max_digits ->
  decimal_column max_digits places (Decimal.mk 0 e)
  = Returns (Decimal.mk 0 (- places)).
Proof.
  intros Hm. unfold decimal_column, Decimal.quantize.
  cbn [Decimal.coeff Decimal.exponent].
  assert (Hp : 0 < 10 ^ max_digits) by (apply Z.pow_pos_nonneg; lia).
  apply Z.ltb_lt in Hp.
  destruct (- places <=? e); cbn [Decimal.coeff].
  - rewrite Z.mul_0_l. change (Z.abs 0) with 0. rewrite Hp. reflexivity.
  - rewrite half_even_zero. change (Z.abs 0) with 0. rewrite Hp.
    reflexivity.
Qed.

(** A value of [c] hundredths goes into a column of two places as it
    is, when it has no more digits than the column. *)
Lemma quantize_cents (c : Z) : Decimal.quantize 2 (cents c) = cents c.
Proof.
  unfold Decimal.quantize, cents. cbn [Decimal.coeff Decimal.exponent].
  change (- 2 <=? - 2) with true. cbv iota.
  change (- 2 + 2) with 0. rewrite Z.pow_0_r, Z.mul_1_r. reflexivity.
Qed.

Lemma decimal_column_cents (max_digits c : Z) :
  Z.abs c < 10 ^ max_digits ->
  decimal_column max_digits 2 (cents c) = Returns (cents c).
Proof.
  intros Hc. unfold decimal_column. rewrite quantize_cents.
  unfold cents at 1. cbn [Decimal.coeff].
  apply Z.ltb_lt in Hc. rewrite Hc. reflexivity.
Qed.

(** Sums and differences of hundredths are hundredths. *)
Lemma plus_cents (x y : Z) : Decimal.plus (cents x) (cents y) = cents (x + y).
Proof.
  unfold Decimal.plus, Decimal.common, Decimal.scale, cents.
  cbn [Decimal.coeff Decimal.exponent].
  change (Z.min (- 2) (- 2)) with (- 2). change (- 2 - - 2) with 0.
  rewrite Z.pow_0_r, !Z.mul_1_r. reflexivity.
Qed.

Lemma minus_cents (x y : Z) :
  Decimal.minus (cents x) (cents y) = cents (x - y).
Proof.
  unfold Decimal.minus, Decimal.common, Decimal.scale, cents.
  cbn [Decimal.coeff Decimal.exponent].
  change (Z.min (- 2) (- 2)) with (- 2). change (- 2 - - 2) with 0.
  rewrite Z.pow_0_r, !Z.mul_1_r. reflexivity.
Qed.

Lemma cents_le (x y : Z) : (cents x <= cents y)%D <-> x <= y.
Proof.
  unfold Decimal.le, Decimal.leb, Decimal.common, Decimal.scale, cents.
  cbn [Decimal.coeff Decimal.exponent].
  change (Z.min (- 2) (- 2)) with (- 2). change (- 2 - - 2) with 0.
  rewrite Z.pow_0_r, !Z.mul_1_r. apply Z.leb_le.
Qed.

Lemma cents_pos (x : Z) : (0 < cents x)%D <-> 0 < x.
Proof. apply lt_zero_coeff. Qed.

(** ** Wallet: saving *)

(** The wallet with its timestamp refreshed. *)
Lemma wallet_pre_save (adds : bool) (clock : Timestamp) (w : Wallet.t) :
  pre_save adds clock w
  = Wallet.mk (Wallet.user w) (Wallet.balance w) (Wallet.currency w)
              (Some clock).
Proof. reflexivity. Qed.

(** The storage layer refuses a wallet exactly when its balance, at two
    places, has more than twelve digits. *)
Lemma wallet_refusal (env : Env) (w : Wallet.t) :
  refusal env w
  = if Z.abs (Decimal.coeff (Decimal.quantize 2 (Wallet.balance w)))
       <? 10 ^ 12
    then None else Some InvalidOperation.
Proof.
  unfold refusal. cbn [prepare execute Wallet.model]. unfold decimal_column.
  destruct (Z.abs (Decimal.coeff (Decimal.quantize 2 (Wallet.balance w)))
            <? 10 ^ 12); reflexivity.
Qed.

(** The two ways a save of a wallet ends. *)
Lemma wallet_save_cases (env : Env) (s : Stored Wallet.t) :
  (refusal env (self s) = None /\
   Wallet.save env s
   = (Returns tt,
      {| self := pre_save (adding s) (now env) (self s);
         row := Some (Wallet.set_balance
                        (Decimal.quantize 2 (Wallet.balance (self s)))
                        (pre_save (adding s) (now env) (self s))) |}))
  \/
  (refusal env (self s) = Some InvalidOperation /\
   Wallet.save env s
   = (Raises InvalidOperation,
      if adding s then s
      else {| self := pre_save (adding s) (now env) (self s);
              row := row s |})).
Proof.
  rewrite wallet_refusal.
  unfold Wallet.save, Model_save. cbn [prepare execute Wallet.model].
  rewrite wallet_pre_save. cbn [Wallet.balance]. unfold decimal_column.
  destruct (Z.abs (Decimal.coeff
                     (Decimal.quantize 2 (Wallet.balance (self s))))
            <? 10 ^ 12); [left | right]; split; reflexivity.
Qed.

Lemma wallet_save_result (env : Env) (s : Stored Wallet.t) :
  result (Wallet.save env s)
  = match refusal env (self s) with
    | None => Returns tt
    | Some e => Raises e
    end.
Proof.
  destruct (wallet_save_cases env s) as [[Hr Hs] | [Hr Hs]];
    rewrite Hr, Hs; reflexivity.
Qed.

(** A save assigns nothing but the timestamp. *)
Lemma wallet_save_self (env : Env) (s : Stored Wallet.t) :
  Wallet.user (self (after (Wallet.save env s))) = Wallet.user (self s) /\
  Wallet.balance (self (after (Wallet.save env s)))
  = Wallet.balance (self s) /\
  Wallet.currency (self (after (Wallet.save env s)))
  = Wallet.currency (self s) /\
  (Wallet.updated_at (self (after (Wallet.save env s)))
   = Wallet.updated_at (self s) \/
   Wallet.updated_at (self (after (Wallet.save env s))) = Some (now env)).
Proof.
  destruct (wallet_save_cases env s) as [[_ Hs] | [_ Hs]]; rewrite Hs.
  - repeat split. now right.
  - destruct (adding s); repeat split; [now left | now right].
Qed.

(** A refused save writes nothing. *)
Lemma wallet_save_row (env : Env) (s : Stored Wallet.t) :
  refusal env (self s) <> None -> row (after (Wallet.save env s)) = row s.
Proof.
  intros Hr.
  destruct (wallet_save_cases env s) as [[Hn _] | [_ Hs]];
    [contradiction |].
  rewrite Hs. destruct (adding s); reflexivity.
Qed.

(** ** Wallet: the paths of the funds operations *)

Lemma add_funds_raises (a : Decimal.t) (env : Env) (s : Stored Wallet.t) :
  (a <= 0)%D -> Wallet.add_funds a env s = (Raises InvalidAmount, s).
Proof. intros Ha. unfold Wallet.add_funds. rewrite Ha. reflexivity. Qed.

Lemma add_funds_overflows (a : Decimal.t) (env : Env) (s : Stored Wallet.t) :
  (0 < a)%D -> (Wallet.balance (self s) + a)%D = None ->
  Wallet.add_funds a env s = (Raises Overflow, s).
Proof.
  intros Ha Hsum. apply guard_false_iff in Ha.
  unfold Wallet.add_funds. rewrite Ha.
  unfold bind at 1. unfold this. unfold bind at 1. rewrite Hsum.
  reflexivity.
Qed.

Lemma add_funds_saves
    (a d : Decimal.t) (env : Env) (s : Stored Wallet.t) :
  (0 < a)%D -> (Wallet.balance (self s) + a)%D = Some d ->
  Wallet.add_funds a env s = Wallet.save env (assigned d s).
Proof.
  intros Ha Hsum. apply guard_false_iff in Ha.
  unfold Wallet.add_funds. rewrite Ha.
  unfold bind at 1. unfold this. unfold bind at 1. rewrite Hsum.
  reflexivity.
Qed.

Lemma deduct_funds_raises (a : Decimal.t) (env : Env) (s : Stored Wallet.t) :
  (a <= 0)%D -> Wallet.deduct_funds a env s = (Raises InvalidAmount, s).
Proof. intros Ha. unfold Wallet.deduct_funds. rewrite Ha. reflexivity. Qed.

Lemma deduct_funds_refuses (a : Decimal.t) (env : Env) (s : Stored Wallet.t) :
  (0 < a)%D -> (Wallet.balance (self s) < a)%D ->
  Wallet.deduct_funds a env s = (Returns false, s).
Proof.
  intros Ha Hb. apply guard_false_iff in Ha.
  unfold Decimal.lt in Hb. rewrite ltb_negb_leb in Hb.
  apply negb_true_iff in Hb.
  unfold Wallet.deduct_funds. rewrite Ha.
  unfold bind, Wallet.can_afford, bind, this, ret, Decimal.geb.
  rewrite Hb. reflexivity.
Qed.

Lemma deduct_funds_overflows
    (a : Decimal.t) (env : Env) (s : Stored Wallet.t) :
  (0 < a)%D -> (a <= Wallet.balance (self s))%D ->
  (Wallet.balance (self s) - a)%D = None ->
  Wallet.deduct_funds a env s = (Raises Overflow, s).
Proof.
  intros Ha Hb Hdiff. apply guard_false_iff in Ha.
  unfold Wallet.deduct_funds. rewrite Ha.
  unfold bind at 1. unfold Wallet.can_afford, bind, this, ret, Decimal.geb.
  rewrite Hb. cbn [negb]. rewrite Hdiff. reflexivity.
Qed.

Lemma deduct_funds_saves
    (a d : Decimal.t) (env : Env) (s : Stored Wallet.t) :
  (0 < a)%D -> (a <= Wallet.balance (self s))%D ->
  (Wallet.balance (self s) - a)%D = Some d ->
  Wallet.deduct_funds a env s
  = (match result (Wallet.save env (assigned d s)) with
     | Returns _ => Returns true
     | Raises e => Raises e
     end,
     after (Wallet.save env (assigned d s))).
Proof.
  intros Ha Hb Hdiff. apply guard_false_iff in Ha.
  unfold Wallet.deduct_funds. rewrite Ha.
  unfold bind at 1. unfold Wallet.can_afford, bind, this, ret, Decimal.geb.
  rewrite Hb. cbn [negb]. rewrite Hdiff.
  unfold arith, ret, assign, modify, assigned, result, after.
  destruct (Wallet.save env _) as [[[] | e] s']; reflexivity.
Qed.

(** Every amount takes one of the three paths. *)
Lemma amount_cases (a b : Decimal.t) :
  (a <= 0)%D \/ ((0 < a)%D /\ (b < a)%D) \/ ((0 < a)%D /\ (a <= b)%D).
Proof.
  destruct (a <=? 0)%D eqn:Ha; [left; exact Ha | right].
  apply guard_false_iff in Ha.
  destruct (a <=? b)%D eqn:Hb; [right; split; [exact Ha | exact Hb] | left].
  split; [exact Ha |]. unfold Decimal.lt. rewrite ltb_negb_leb, Hb.
  reflexivity.
Qed.

(** The balance that a funds operation leaves on the object. *)
Lemma add_funds_balance
    (a d : Decimal.t) (env : Env) (s : Stored Wallet.t) :
  (0 < a)%D -> (Wallet.balance (self s) + a)%D = Some d ->
  Wallet.balance (self (after (Wallet.add_funds a env s))) = d.
Proof.
  intros Ha Hsum. rewrite (add_funds_saves a d env s Ha Hsum).
  destruct (wallet_save_self env (assigned d s)) as [_ [Hb _]].
  exact Hb.
Qed.

Lemma deduct_funds_balance
    (a d : Decimal.t) (env : Env) (s : Stored Wallet.t) :
  (0 < a)%D -> (a <= Wallet.balance (self s))%D ->
  (Wallet.balance (self s) - a)%D = Some d ->
  Wallet.balance (self (after (Wallet.deduct_funds a env s))) = d.
Proof.
  intros Ha Hle Hdiff. rewrite (deduct_funds_saves a d env s Ha Hle Hdiff).
  destruct (wallet_save_self env (assigned d s)) as [_ [Hb _]].
  exact Hb.
Qed.

Lemma deduct_funds_result
    (a d : Decimal.t) (env : Env) (s : Stored Wallet.t) :
  (0 < a)%D -> (a <= Wallet.balance (self s))%D ->
  (Wallet.balance (self s) - a)%D = Some d ->
  result (Wallet.deduct_funds a env s)
  = match refusal env (Wallet.set_balance d (self s)) with
    | None => Returns true
    | Some e => Raises e
    end.
Proof.
  intros Ha Hle Hdiff. rewrite (deduct_funds_saves a d env s Ha Hle Hdiff).
  unfold result at 1. cbn [fst]. rewrite wallet_save_result.
  unfold assigned. cbn [self].
  destruct (refusal env _); reflexivity.
Qed.




(** The scenario of the specification: from 100.00, deducting 100.00
    returns true and leaves 0.00; deducting 0.01 then returns false and
    leaves 0.00. *)
Example deduct_funds_scenario :
  let r1 := Wallet.deduct_funds (dec 10000 (-2)) noon
              (wallet_of (dec 10000 (-2))) in
  let r2 := Wallet.deduct_funds (dec 1 (-2)) noon (after r1) in
  result r1 = Returns true /\
  Wallet.balance (self (after r1)) = dec 0 (-2) /\
  result r2 = Returns false /\
  Wallet.balance (self (after r2)) = dec 0 (-2).
Proof. vm_compute. repeat split. Qed.

(** Past the exponents of the context the difference overflows: the
    call raises and changes nothing. *)
Example deduct_funds_overflow_scenario :
  Wallet.deduct_funds (dec 1 1000000) noon (wallet_of (dec 2 1000000))
  = (Raises Overflow, wallet_of (dec 2 1000000)).
Proof.
  apply deduct_funds_overflows.
  - apply lt_zero_coeff. reflexivity.
  - reflexivity.
  - reflexivity.
Qed.

(** C2: for every wallet and every amount a <= 0, [add_funds(a)] and
    [deduct_funds(a)] both raise the invalid-amount error, and the balance,
    like the rest of the wallet and its row, is as it was. *)
Theorem nonpositive_amount_raises
    (s : Stored Wallet.t) (a : Decimal.t) (env : Env) :
  (a <= 0)%D ->
  (result (Wallet.add_funds a env s) = Raises InvalidAmount /\
   Wallet.balance (self (after (Wallet.add_funds a env s)))
   = Wallet.balance (self s) /\
   after (Wallet.add_funds a env s) = s)
  /\
  (result (Wallet.deduct_funds a env s) = Raises InvalidAmount /\
   Wallet.balance (self (after (Wallet.deduct_funds a env s)))
   = Wallet.balance (self s) /\
   after (Wallet.deduct_funds a env s) = s).
Proof.
  intros Ha.
  rewrite (add_funds_raises a env s Ha), (deduct_funds_raises a env s Ha).
  repeat split.
Qed.

Lemma nonpositive_amount_raises_witness :
  (dec (-5) 0 <= 0)%D /\
  result (Wallet.add_funds (dec (-5) 0) noon (wallet_of (dec 10000 (-2))))
  = Raises InvalidAmount /\
  result (Wallet.deduct_funds (dec 0 (-2)) noon (wallet_of (dec 10000 (-2))))
  = Raises InvalidAmount.
Proof.
  split; [reflexivity |]. split.
  - apply (nonpositive_amount_raises
             (wallet_of (dec 10000 (-2))) (dec (-5) 0) noon).
    reflexivity.
  - apply (nonpositive_amount_raises
             (wallet_of (dec 10000 (-2))) (dec 0 (-2)) noon).
    reflexivity.
Defined.

(** ** Wallet: the frame of the funds operations *)


(** The ways the two operations end. *)
Lemma add_funds_cases (a : Decimal.t) (env : Env) (s : Stored Wallet.t) :
  Wallet.add_funds a env s = (Raises InvalidAmount, s) \/
  Wallet.add_funds a env s = (Raises Overflow, s) \/
  exists d, (0 < a)%D /\ (Wallet.balance (self s) + a)%D = Some d /\
            Wallet.add_funds a env s = Wallet.save env (assigned d s).
Proof.
  destruct (amount_cases a 0%D) as [H0 | [[Ha _] | [Ha _]]].
  - left. now apply add_funds_raises.
  - right. destruct (Wallet.balance (self s) + a)%D as [d |] eqn:Hsum.
    + right. exists d. repeat split; try assumption.
      now apply add_funds_saves.
    + left. now apply add_funds_overflows.
  - right. destruct (Wallet.balance (self s) + a)%D as [d |] eqn:Hsum.
    + right. exists d. repeat split; try assumption.
      now apply add_funds_saves.
    + left. now apply add_funds_overflows.
Qed.

Lemma deduct_funds_cases (a : Decimal.t) (env : Env) (s : Stored Wallet.t) :
  Wallet.deduct_funds a env s = (Raises InvalidAmount, s) \/
  Wallet.deduct_funds a env s = (Returns false, s) \/
  Wallet.deduct_funds a env s = (Raises Overflow, s) \/
  exists d, (0 < a)%D /\ (a <= Wallet.balance (self s))%D /\
            (Wallet.balance (self s) - a)%D = Some d /\
            result (Wallet.deduct_funds a env s)
            = match refusal env (Wallet.set_balance d (self s)) with
              | None => Returns true
              | Some e => Raises e
              end /\
            after (Wallet.deduct_funds a env s)
            = after (Wallet.save env (assigned d s)).
Proof.
  destruct (amount_cases a (Wallet.balance (self s)))
    as [H0 | [[Ha Hlt] | [Ha Hle]]].
  - left. now apply deduct_funds_raises.
  - right. left. now apply deduct_funds_refuses.
  - right. right.
    destruct (Wallet.balance (self s) - a)%D as [d |] eqn:Hdiff.
    + right. exists d. repeat split; try assumption.
      * now apply deduct_funds_result.
      * now rewrite (deduct_funds_saves a d env s Ha Hle Hdiff).
    + left. now apply deduct_funds_overflows.
Qed.




(** ** Wallet: the balance stays non-negative *)

Lemma add_funds_nonneg (s : Stored Wallet.t) (a : Decimal.t) (env : Env) :
  (0 <= Wallet.balance (self s))%D ->
  (0 <= Wallet.balance (self (after (Wallet.add_funds a env s))))%D.
Proof.
  intros Hs.
  destruct (add_funds_cases a env s) as [Hr | [Hr | [d [Ha [Hsum _]]]]].
  - rewrite Hr. exact Hs.
  - rewrite Hr. exact Hs.
  - rewrite (add_funds_balance a d env s Ha Hsum).
    now apply (add_nonneg (Wallet.balance (self s)) a).
Qed.

Lemma deduct_funds_nonneg (s : Stored Wallet.t) (a : Decimal.t) (env : Env) :
  (0 <= Wallet.balance (self s))%D ->
  (0 <= Wallet.balance (self (after (Wallet.deduct_funds a env s))))%D.
Proof.
  intros Hs.
  destruct (deduct_funds_cases a env s)
    as [Hr | [Hr | [Hr | [d [Ha [Hle [Hdiff _]]]]]]].
  - rewrite Hr. exact Hs.
  - rewrite Hr. exact Hs.
  - rewrite Hr. exact Hs.
  - rewrite (deduct_funds_balance a d env s Ha Hle Hdiff).
    now apply (sub_nonneg (Wallet.balance (self s)) a).
Qed.

Lemma perform_after (c : Wallet.Call) (env : Env) (s : Stored Wallet.t) :
  after (Wallet.perform c env s)
  = match c with
    | Wallet.CanAfford _ => s
    | Wallet.AddFunds a => after (Wallet.add_funds a env s)
    | Wallet.DeductFunds a => after (Wallet.deduct_funds a env s)
    end.
Proof.
  destruct c as [a | a | a]; simpl; try reflexivity.
  unfold bind, after.
  destruct (Wallet.deduct_funds a env s) as [[b | e] s']; reflexivity.
Qed.

Lemma perform_nonneg (c : Wallet.Call) (env : Env) (s : Stored Wallet.t) :
  (0 <= Wallet.balance (self s))%D ->
  (0 <= Wallet.balance (self (after (Wallet.perform c env s))))%D.
Proof.
  intros Hs. rewrite perform_after. destruct c as [a | a | a].
  - exact Hs.
  - now apply add_funds_nonneg.
  - now apply deduct_funds_nonneg.
Qed.

(** C6: for every wallet whose balance is >= 0, every sequence of
    [can_afford], [add_funds] and [deduct_funds] calls, with any amounts,
    those that raise or return false included, leaves the balance >= 0. *)
Theorem balance_never_negative
    (calls : list (Env * Wallet.Call)) (s : Stored Wallet.t) :
  (0 <= Wallet.balance (self s))%D ->
  (0 <= Wallet.balance (self (Wallet.run calls s)))%D.
Proof.
  revert s. induction calls as [| [env c] rest IH]; intros s Hs; simpl.
  - exact Hs.
  - apply IH. now apply perform_nonneg.
Qed.

Lemma balance_never_negative_witness :
  (0 <= dec 500 (-2))%D /\
  (0 <= Wallet.balance
          (self (Wallet.run
                   [(noon, Wallet.DeductFunds (dec 501 (-2)));
                    (noon, Wallet.AddFunds (dec (-1) 0));
                    (noon, Wallet.CanAfford (dec 7 0));
                    (noon, Wallet.AddFunds (dec 25 (-1)));
                    (noon, Wallet.DeductFunds (dec 75 (-1)))]
                   (wallet_of (dec 500 (-2))))))%D.
Proof.
  split; [reflexivity |].
  apply (balance_never_negative _ (wallet_of (dec 500 (-2)))).
  reflexivity.
Defined.

(** ** Wallet: emptying it *)

Lemma quantize_zero (places e : Z) :
  Decimal.quantize places (Decimal.mk 0 e) = Decimal.mk 0 (- places).
Proof.
  unfold Decimal.quantize. cbn [Decimal.coeff Decimal.exponent].
  destruct (- places <=? e); [now rewrite Z.mul_0_l | reflexivity].
Qed.

Lemma zero_lt (e : Z) (a : Decimal.t) : (0 < a)%D -> (Decimal.mk 0 e < a)%D.
Proof.
  rewrite lt_zero_coeff. intros Ha.
  unfold Decimal.lt, Decimal.ltb, Decimal.scale.
  cbn [Decimal.coeff]. rewrite Z.mul_0_l. apply Z.ltb_lt.
  pose proof (scale_factor_pos_r (Decimal.mk 0 e) a). nia.
Qed.

(** X7: deducting the whole of a positive balance returns true and leaves
    a wallet from which every further [deduct_funds(a)], a > 0, returns
    false without changing anything. *)
Theorem deduct_whole_balance_empties
    (s : Stored Wallet.t) (env : Env) (a : Decimal.t) (env' : Env) :
  (0 < Wallet.balance (self s))%D -> (0 < a)%D ->
  result (Wallet.deduct_funds (Wallet.balance (self s)) env s)
  = Returns true /\
  Wallet.deduct_funds a env'
    (after (Wallet.deduct_funds (Wallet.balance (self s)) env s))
  = (Returns false,
     after (Wallet.deduct_funds (Wallet.balance (self s)) env s)).
Proof.
  intros Hb Ha.
  pose proof (sub_self (Wallet.balance (self s))) as Hzero.
  split.
  - rewrite (deduct_funds_result _ _ env s Hb (le_refl _) Hzero).
    rewrite wallet_refusal. cbn [Wallet.balance Wallet.set_balance].
    rewrite quantize_zero. reflexivity.
  - apply deduct_funds_refuses; [exact Ha |].
    rewrite (deduct_funds_balance _ _ env s Hb (le_refl _) Hzero).
    now apply zero_lt.
Qed.

Lemma deduct_whole_balance_empties_witness :
  Wallet.deduct_funds (dec 1 (-2)) noon
    (after (Wallet.deduct_funds (dec 4250 (-2)) noon
              (wallet_of (dec 4250 (-2)))))
  = (Returns false,
     after (Wallet.deduct_funds (dec 4250 (-2)) noon
              (wallet_of (dec 4250 (-2))))).
Proof.
  apply (deduct_whole_balance_empties
           (wallet_of (dec 4250 (-2))) noon (dec 1 (-2)) noon);
    reflexivity.
Defined.

(** ** Wallet: amounts of hundredths within the column *)

Lemma cents_in_range (c : Z) : in_range (Decimal.exponent (cents c)).
Proof. unfold in_range, cents. vm_compute. split; discriminate. Qed.

Lemma cents_add (x y : Z) :
  Z.abs (x + y) < 10 ^ 12 -> (cents x + cents y)%D = Some (cents (x + y)).
Proof.
  intros H. unfold Decimal.add. rewrite plus_cents.
  apply fix_context_exact; [| apply cents_in_range].
  unfold cents. cbn [Decimal.coeff]. lia.
Qed.

Lemma cents_sub (x y : Z) :
  Z.abs (x - y) < 10 ^ 12 -> (cents x - cents y)%D = Some (cents (x - y)).
Proof.
  intros H. unfold Decimal.sub. rewrite minus_cents.
  apply fix_context_exact; [| apply cents_in_range].
  unfold cents. cbn [Decimal.coeff]. lia.
Qed.

(** A wallet whose balance is hundredths within the column is written as
    it is: after the save the row holds what the object holds. *)
Lemma wallet_save_cents (env : Env) (s : Stored Wallet.t) (c : Z) :
  Wallet.balance (self s) = cents c -> Z.abs c < 10 ^ 12 ->
  Wallet.save env s
  = (Returns tt,
     {| self := pre_save (adding s) (now env) (self s);
        row := Some (pre_save (adding s) (now env) (self s)) |}).
Proof.
  intros Hb Hc.
  destruct (wallet_save_cases env s) as [[_ Hs] | [Hr _]].
  - rewrite Hs, Hb, quantize_cents, <- Hb. reflexivity.
  - rewrite wallet_refusal, Hb, quantize_cents in Hr.
    unfold cents in Hr. cbn [Decimal.coeff] in Hr.
    apply Z.ltb_lt in Hc. rewrite Hc in Hr. discriminate.
Qed.

(** On hundredths within the column [add_funds] and [deduct_funds] are
    exact and write what they assign. *)
Lemma add_funds_cents (s : Stored Wallet.t) (b a : Z) (env : Env) :
  Wallet.balance (self s) = cents b -> 0 < a -> Z.abs (b + a) < 10 ^ 12 ->
  Wallet.add_funds (cents a) env s
  = (Returns tt,
     {| self := Wallet.mk (Wallet.user (self s)) (cents (b + a))
                          (Wallet.currency (self s)) (Some (now env));
        row := Some (Wallet.mk (Wallet.user (self s)) (cents (b + a))
                               (Wallet.currency (self s))
                               (Some (now env))) |}).
Proof.
  intros Hb Ha Hfit.
  rewrite (add_funds_saves (cents a) (cents (b + a)) env s);
    [| now apply cents_pos | rewrite Hb; now apply cents_add].
  now rewrite (wallet_save_cents env _ (b + a)) by (reflexivity || exact Hfit).
Qed.

Lemma deduct_funds_cents (s : Stored Wallet.t) (b a : Z) (env : Env) :
  Wallet.balance (self s) = cents b -> 0 < a -> a <= b ->
  Z.abs (b - a) < 10 ^ 12 ->
  Wallet.deduct_funds (cents a) env s
  = (Returns true,
     {| self := Wallet.mk (Wallet.user (self s)) (cents (b - a))
                          (Wallet.currency (self s)) (Some (now env));
        row := Some (Wallet.mk (Wallet.user (self s)) (cents (b - a))
                               (Wallet.currency (self s))
                               (Some (now env))) |}).
Proof.
  intros Hb Ha Hle Hfit.
  rewrite (deduct_funds_saves (cents a) (cents (b - a)) env s);
    [| now apply cents_pos | rewrite Hb; now apply cents_le
     | rewrite Hb; now apply cents_sub].
  now rewrite (wallet_save_cents env _ (b - a)) by (reflexivity || exact Hfit).
Qed.

(** X2: on a wallet whose balance is b hundredths, [add_funds] of a > 0
    hundredths, the sum staying within the twelve digits of the column,
    returns, leaves exactly b + a hundredths, and the row holds the wallet
    as the object holds it. *)
Theorem add_funds_increments
    (s : Stored Wallet.t) (b a : Z) (env : Env) :
  Wallet.balance (self s) = cents b -> 0 < a -> Z.abs (b + a) < 10 ^ 12 ->
  result (Wallet.add_funds (cents a) env s) = Returns tt /\
  Wallet.balance (self (after (Wallet.add_funds (cents a) env s)))
  = cents (b + a) /\
  row (after (Wallet.add_funds (cents a) env s))
  = Some (self (after (Wallet.add_funds (cents a) env s))).
Proof.
  intros Hb Ha Hfit. rewrite (add_funds_cents s b a env Hb Ha Hfit).
  repeat split.
Qed.

Lemma add_funds_increments_witness :
  Wallet.balance
    (self (after (Wallet.add_funds (cents 2500) noon
                    (wallet_of (cents 10000)))))
  = cents 12500.
Proof.
  apply (add_funds_increments (wallet_of (cents 10000)) 10000 2500 noon);
    [reflexivity | lia | vm_compute; reflexivity].
Defined.

(** X4: on a wallet whose balance is b >= 0 hundredths, [add_funds] of
    a > 0 hundredths followed by [deduct_funds] of the same amount, the sum
    staying within the column, returns true and leaves exactly b
    hundredths, on the object and in its row. *)
Theorem add_then_deduct_restores
    (s : Stored Wallet.t) (b a : Z) (env1 env2 : Env) :
  Wallet.balance (self s) = cents b -> 0 <= b -> 0 < a ->
  b + a < 10 ^ 12 ->
  result (Wallet.deduct_funds (cents a) env2
            (after (Wallet.add_funds (cents a) env1 s)))
  = Returns true /\
  Wallet.balance
    (self (after (Wallet.deduct_funds (cents a) env2
                    (after (Wallet.add_funds (cents a) env1 s)))))
  = cents b /\
  row (after (Wallet.deduct_funds (cents a) env2
                (after (Wallet.add_funds (cents a) env1 s))))
  = Some (self (after (Wallet.deduct_funds (cents a) env2
                         (after (Wallet.add_funds (cents a) env1 s))))).
Proof.
  intros Hb Hb0 Ha Hfit.
  rewrite (add_funds_cents s b a env1 Hb Ha) by lia.
  unfold after. cbn [snd].
  rewrite (deduct_funds_cents _ (b + a) a env2) by (reflexivity || lia).
  replace (b + a - a) with b by lia. repeat split.
Qed.

Lemma add_then_deduct_restores_witness :
  result (Wallet.deduct_funds (cents 5) noon
            (after (Wallet.add_funds (cents 5) noon
                      (wallet_of (cents 10000)))))
  = Returns true.
Proof.
  apply (add_then_deduct_restores (wallet_of (cents 10000)) 10000 5 noon noon);
    [reflexivity | lia | lia | vm_compute; reflexivity].
Defined.

(** ** Product: saving *)

(** The storage layer refuses a product when its price, at two places,
    has more than ten digits, when one of its three counters is outside
    64 bits, and when one of them is negative. *)
Lemma product_refusal (env : Env) (p : Product.t) :
  refusal env p
  = match decimal_column 10 2 (Product.price p) with
    | Raises e => Some e
    | Returns _ =>
        positive_integer_columns
          [Product.stock p; Product.file_size p; Product.download_count p]
    end.
Proof.
  unfold refusal. cbn [prepare execute Product.model].
  destruct (decimal_column 10 2 (Product.price p)); reflexivity.
Qed.

(** The refusal looks at the price and the three counters only. *)
Lemma product_refusal_fields (env env' : Env) (p p' : Product.t) :
  Product.price p' = Product.price p ->
  Product.stock p' = Product.stock p ->
  Product.file_size p' = Product.file_size p ->
  Product.download_count p' = Product.download_count p ->
  refusal env' p' = refusal env p.
Proof.
  intros Hprice Hstock Hsize Hcount.
  rewrite !product_refusal, Hprice, Hstock, Hsize, Hcount. reflexivity.
Qed.

Lemma product_save_unfold (env : Env) (s : Stored Product.t) :
  Product.save env s
  = match decimal_column 10 2 (Product.price (self s)) with
    | Raises e =>
        (Raises e,
         if adding s then s
         else {| self := pre_save (adding s) (now env) (self s);
                 row := row s |})
    | Returns d =>
        match positive_integer_columns
                [Product.stock (self s); Product.file_size (self s);
                 Product.download_count (self s)] with
        | Some e =>
            (Raises e,
             {| self := pre_save (adding s) (now env) (self s);
                row := row s |})
        | None =>
            (Returns tt,
             {| self := pre_save (adding s) (now env) (self s);
                row := Some (Product.set_price d
                               (pre_save (adding s) (now env) (self s))) |})
        end
    end.
Proof.
  unfold Product.save, Model_save.
  cbn [prepare execute pre_save Product.model Product.price].
  destruct (decimal_column 10 2 (Product.price (self s))); reflexivity.
Qed.

Lemma product_save_result (env : Env) (s : Stored Product.t) :
  result (Product.save env s)
  = match refusal env (self s) with
    | None => Returns tt
    | Some e => Raises e
    end.
Proof.
  rewrite product_refusal, product_save_unfold.
  destruct (decimal_column 10 2 (Product.price (self s))); [| reflexivity].
  destruct (positive_integer_columns _); reflexivity.
Qed.

(** A save assigns nothing but the timestamps. *)
Lemma product_save_self (env : Env) (s : Stored Product.t) :
  self (after (Product.save env s)) = self s \/
  self (after (Product.save env s)) = pre_save (adding s) (now env) (self s).
Proof.
  rewrite product_save_unfold.
  destruct (decimal_column 10 2 (Product.price (self s))) as [d | e].
  - destruct (positive_integer_columns _); right; reflexivity.
  - destruct (adding s); [left | right]; reflexivity.
Qed.

Lemma product_save_fields (env : Env) (s : Stored Product.t) :
  Product.price (self (after (Product.save env s))) = Product.price (self s)
  /\ Product.stock (self (after (Product.save env s)))
     = Product.stock (self s)
  /\ Product.file_size (self (after (Product.save env s)))
     = Product.file_size (self s)
  /\ Product.download_count (self (after (Product.save env s)))
     = Product.download_count (self s)
  /\ Product.is_active (self (after (Product.save env s)))
     = Product.is_active (self s).
Proof.
  destruct (product_save_self env s) as [H | H]; rewrite H; repeat split.
Qed.

(** What a save leaves in the row: on a refusal what was there, otherwise
    the counters of the object. *)
Lemma product_save_row (env : Env) (s : Stored Product.t) :
  match refusal env (self s) with
  | Some _ => row (after (Product.save env s)) = row s
  | None =>
      exists r, row (after (Product.save env s)) = Some r /\
                Product.stock r = Product.stock (self s)
  end.
Proof.
  rewrite product_refusal, product_save_unfold.
  destruct (decimal_column 10 2 (Product.price (self s))) as [d | e].
  - destruct (positive_integer_columns _); [reflexivity |].
    eexists. split; reflexivity.
  - destruct (adding s); reflexivity.
Qed.

(** A product that the storage layer accepts has a stock that is not
    negative. *)
Lemma accepted_stock_nonneg (env : Env) (p : Product.t) :
  refusal env p = None -> 0 <= Product.stock p.
Proof.
  rewrite product_refusal.
  destruct (decimal_column 10 2 (Product.price p)); [| discriminate].
  unfold positive_integer_columns.
  destruct (forallb sqlite_integer _); [| discriminate].
  destruct (forallb (Z.leb 0) _) eqn:Hpos; [| discriminate].
  intros _. cbn [forallb] in Hpos.
  apply andb_true_iff in Hpos. destruct Hpos as [Hstock _].
  now apply Z.leb_le.
Qed.

(** ** Product: the paths of the stock operations *)

Lemma decrease_stock_refuses (q : Z) (env : Env) (s : Stored Product.t) :
  Product.stock (self s) < q ->
  Product.decrease_stock q env s = (Returns false, s).
Proof.
  intros Hq. unfold Product.decrease_stock, bind, this.
  replace (Product.stock (self s) >=? q) with false; [reflexivity |].
  symmetry. rewrite Z.geb_leb. apply Z.leb_gt. exact Hq.
Qed.

Lemma decrease_stock_saves (q : Z) (env : Env) (s : Stored Product.t) :
  q <= Product.stock (self s) ->
  Product.decrease_stock q env s
  = (match result (Product.save env
                     (restocked (Product.stock (self s) - q) s)) with
     | Returns _ => Returns true
     | Raises e => Raises e
     end,
     after (Product.save env (restocked (Product.stock (self s) - q) s))).
Proof.
  intros Hq. unfold Product.decrease_stock. unfold bind at 1. unfold this.
  replace (Product.stock (self s) >=? q) with true
    by (symmetry; apply Z.geb_le; exact Hq).
  unfold bind, assign, modify, restocked, result, after, ret.
  destruct (Product.save env _) as [[[] | e] s']; reflexivity.
Qed.

Lemma increase_stock_saves (q : Z) (env : Env) (s : Stored Product.t) :
  Product.increase_stock q env s
  = Product.save env (restocked (Product.stock (self s) + q) s).
Proof. reflexivity. Qed.

Lemma decrease_stock_stock (q : Z) (env : Env) (s : Stored Product.t) :
  q <= Product.stock (self s) ->
  Product.stock (self (after (Product.decrease_stock q env s)))
  = Product.stock (self s) - q.
Proof.
  intros Hq. rewrite (decrease_stock_saves q env s Hq).
  unfold after at 1. cbn [snd].
  destruct (product_save_fields env
              (restocked (Product.stock (self s) - q) s))
    as [_ [Hstock _]].
  exact Hstock.
Qed.

Lemma decrease_stock_result (q : Z) (env : Env) (s : Stored Product.t) :
  q <= Product.stock (self s) ->
  result (Product.decrease_stock q env s)
  = match refusal env (Product.set_stock (Product.stock (self s) - q)
                         (self s)) with
    | None => Returns true
    | Some e => Raises e
    end.
Proof.
  intros Hq. rewrite (decrease_stock_saves q env s Hq).
  unfold result at 1. cbn [fst]. rewrite product_save_result.
  unfold restocked. cbn [self]. destruct (refusal env _); reflexivity.
Qed.

Lemma increase_stock_stock (q : Z) (env : Env) (s : Stored Product.t) :
  Product.stock (self (after (Product.increase_stock q env s)))
  = Product.stock (self s) + q.
Proof.
  rewrite increase_stock_saves.
  destruct (product_save_fields env
              (restocked (Product.stock (self s) + q) s))
    as [_ [Hstock _]].
  exact Hstock.
Qed.

Lemma increase_stock_result (q : Z) (env : Env) (s : Stored Product.t) :
  result (Product.increase_stock q env s)
  = match refusal env (Product.set_stock (Product.stock (self s) + q)
                         (self s)) with
    | None => Returns tt
    | Some e => Raises e
    end.
Proof. rewrite increase_stock_saves. apply product_save_result. Qed.

(** The claim C3 as the specification words it fails: with 5 in stock the
    quantity -2^63 passes the test, and the call raises instead of
    returning true, the new stock being more than SQLite can hold. *)
Lemma decrease_stock_iff_counterexample :
  Product.stock (self (stocked 5)) >= - 2 ^ 63 /\
  result (Product.decrease_stock (- 2 ^ 63) noon (stocked 5))
  = Raises OverflowError.
Proof. split; vm_compute; [discriminate | reflexivity]. Qed.

(** C3, amended: for every product with stock s and every quantity q,
    [decrease_stock(q)] returns true, leaving the stock s - q, exactly when
    s >= q and the storage layer accepts the product with that stock; when
    s >= q the stock s - q is assigned whether or not the save is accepted,
    and a save that is refused raises the storage layer's error and writes
    nothing; when s < q the call returns false and the product and its row
    are as they were. *)
Theorem decrease_stock_iff (s : Stored Product.t) (q : Z) (env : Env) :
  ((result (Product.decrease_stock q env s) = Returns true /\
    Product.stock (self (after (Product.decrease_stock q env s)))
    = Product.stock (self s) - q)
   <-> (Product.stock (self s) >= q /\
        refusal env (Product.set_stock (Product.stock (self s) - q) (self s))
        = None))
  /\ (Product.stock (self s) >= q ->
      Product.stock (self (after (Product.decrease_stock q env s)))
      = Product.stock (self s) - q /\
      forall e : Exception,
        refusal env (Product.set_stock (Product.stock (self s) - q) (self s))
        = Some e ->
        result (Product.decrease_stock q env s) = Raises e /\
        row (after (Product.decrease_stock q env s)) = row s)
  /\ (~ Product.stock (self s) >= q ->
      result (Product.decrease_stock q env s) = Returns false /\
      Product.stock (self (after (Product.decrease_stock q env s)))
      = Product.stock (self s) /\
      after (Product.decrease_stock q env s) = s).
Proof.
  destruct (Z_lt_le_dec (Product.stock (self s)) q) as [Hlt | Hle].
  - rewrite (decrease_stock_refuses q env s Hlt). split; [split |].
    + intros [Hr _]. discriminate.
    + intros [Hge _]. lia.
    + split; [intros Hge; lia | intros _; repeat split].
  - split; [split | split].
    + intros [Hr _]. split; [lia |].
      rewrite (decrease_stock_result q env s Hle) in Hr.
      destruct (refusal env _); [discriminate | reflexivity].
    + intros [_ Hacc]. split.
      * rewrite (decrease_stock_result q env s Hle), Hacc. reflexivity.
      * now apply decrease_stock_stock.
    + intros _. split; [now apply decrease_stock_stock |].
      intros e He. split.
      * rewrite (decrease_stock_result q env s Hle), He. reflexivity.
      * rewrite (decrease_stock_saves q env s Hle). unfold after. cbn [snd].
        pose proof (product_save_row env
                      (restocked (Product.stock (self s) - q) s)) as Hrow.
        unfold restocked in Hrow at 1. cbn [self] in Hrow.
        rewrite He in Hrow. exact Hrow.
    + intros Hn. lia.
Qed.

(** The scenario of the specification: from a stock of 5, decreasing by 3
    returns true and leaves 2; decreasing by 3 again returns false and
    leaves 2. *)
Example decrease_stock_scenario :
  let r1 := Product.decrease_stock 3 noon (product_of 5) in
  let r2 := Product.decrease_stock 3 noon (after r1) in
  result r1 = Returns true /\ Product.stock (self (after r1)) = 2 /\
  result r2 = Returns false /\ Product.stock (self (after r2)) = 2.
Proof. vm_compute. repeat split. Qed.



(** C7: the claim fails on the code.  With 5 in stock and in the row,
    [increase_stock(-6)] assigns -1 to the product, the database refuses
    the save, the call raises, and the object is left with a negative
    stock which its row does not have. *)
Theorem stock_never_negative_fails :
  0 <= Product.stock (self (stocked 5)) /\
  result (Product.increase_stock (-6) noon (stocked 5))
  = Raises IntegrityError /\
  Product.stock (self (after (Product.increase_stock (-6) noon (stocked 5))))
  = -1 /\
  row (after (Product.increase_stock (-6) noon (stocked 5)))
  = Some (dataset 5).
Proof. split; [vm_compute; discriminate |]. repeat split. Qed.

(** ** Product: how the stock operations compose *)

(** The product after the save of a stock operation: the stock assigned,
    the other columns as they were. *)
Lemma restocked_save_fields (n : Z) (env : Env) (s : Stored Product.t) :
  Product.price (self (after (Product.save env (restocked n s))))
  = Product.price (self s)
  /\ Product.stock (self (after (Product.save env (restocked n s)))) = n
  /\ Product.file_size (self (after (Product.save env (restocked n s))))
     = Product.file_size (self s)
  /\ Product.download_count
       (self (after (Product.save env (restocked n s))))
     = Product.download_count (self s)
  /\ Product.is_active (self (after (Product.save env (restocked n s))))
     = Product.is_active (self s).
Proof.
  destruct (product_save_fields env (restocked n s))
    as [Hprice [Hstock [Hsize [Hcount Hactive]]]].
  rewrite Hprice, Hstock, Hsize, Hcount, Hactive. repeat split.
Qed.

Lemma decrease_stock_after (q : Z) (env : Env) (s : Stored Product.t) :
  q <= Product.stock (self s) ->
  after (Product.decrease_stock q env s)
  = after (Product.save env (restocked (Product.stock (self s) - q) s)).
Proof. intros Hq. now rewrite (decrease_stock_saves q env s Hq). Qed.

(** The refusal of the product with its stock set back. *)
Lemma refusal_set_back (n : Z) (env env' : Env) (s : Stored Product.t) :
  refusal env'
    (Product.set_stock (Product.stock (self s))
       (self (after (Product.save env (restocked n s)))))
  = refusal env' (self s).
Proof.
  destruct (restocked_save_fields n env s)
    as [Hprice [_ [Hsize [Hcount _]]]].
  apply product_refusal_fields; cbn [Product.set_stock Product.price
    Product.stock Product.file_size Product.download_count];
    [exact Hprice | reflexivity | exact Hsize | exact Hcount].
Qed.

(** X8: a [decrease_stock(q)] with q <= s followed by [increase_stock(q)]
    leaves the product with the stock s again, and on a product whose
    stock is s >= 0 so does [increase_stock(q)] followed by
    [decrease_stock(q)], whether or not the saves are accepted; both calls
    return when the storage layer accepts the product with the stock in
    between and the product as it was. *)
Theorem stock_round_trip (s : Stored Product.t) (q : Z) (env1 env2 : Env) :
  (q <= Product.stock (self s) ->
   Product.stock
     (self (after (Product.increase_stock q env2
                     (after (Product.decrease_stock q env1 s)))))
   = Product.stock (self s)
   /\
   (refusal env1 (Product.set_stock (Product.stock (self s) - q) (self s))
    = None ->
    refusal env2 (self s) = None ->
    result (Product.decrease_stock q env1 s) = Returns true /\
    result (Product.increase_stock q env2
              (after (Product.decrease_stock q env1 s))) = Returns tt))
  /\
  (0 <= Product.stock (self s) ->
   Product.stock
     (self (after (Product.decrease_stock q env2
                     (after (Product.increase_stock q env1 s)))))
   = Product.stock (self s)
   /\
   (refusal env1 (Product.set_stock (Product.stock (self s) + q) (self s))
    = None ->
    refusal env2 (self s) = None ->
    result (Product.increase_stock q env1 s) = Returns tt /\
    result (Product.decrease_stock q env2
              (after (Product.increase_stock q env1 s))) = Returns true)).
Proof.
  split.
  - intros Hq.
    pose proof (decrease_stock_stock q env1 s Hq) as Hmid.
    split.
    + rewrite increase_stock_stock, Hmid. lia.
    + intros Hacc1 Hacc2. split.
      * rewrite (decrease_stock_result q env1 s Hq), Hacc1. reflexivity.
      * rewrite increase_stock_result, Hmid.
        replace (Product.stock (self s) - q + q)
          with (Product.stock (self s)) by lia.
        rewrite (decrease_stock_after q env1 s Hq), refusal_set_back, Hacc2.
        reflexivity.
  - intros Hs.
    pose proof (increase_stock_stock q env1 s) as Hmid.
    assert (Hq : q <= Product.stock
                        (self (after (Product.increase_stock q env1 s))))
      by lia.
    split.
    + rewrite (decrease_stock_stock q env2 _ Hq), Hmid. lia.
    + intros Hacc1 Hacc2. split.
      * rewrite increase_stock_result, Hacc1. reflexivity.
      * rewrite (decrease_stock_result q env2 _ Hq), Hmid.
        replace (Product.stock (self s) + q - q)
          with (Product.stock (self s)) by lia.
        rewrite increase_stock_saves, refusal_set_back, Hacc2.
        reflexivity.
Qed.

Lemma stock_round_trip_witness :
  Product.stock
    (self (after (Product.increase_stock 3 noon
                    (after (Product.decrease_stock 3 noon (product_of 5))))))
  = 5 /\
  result (Product.decrease_stock 9 noon
            (after (Product.increase_stock 9 noon (product_of 5))))
  = Returns true.
Proof.
  split.
  - apply (proj1 (stock_round_trip (product_of 5) 3 noon noon)).
    vm_compute. discriminate.
  - apply (proj2 (stock_round_trip (product_of 5) 9 noon noon));
      [vm_compute; discriminate | reflexivity | reflexivity].
Defined.

(** X9: [decrease_stock] does not look at the sign of the quantity: on a
    product whose stock is >= 0 a negative quantity always passes the
    test, so the stock grows by -q; the call then returns true exactly
    when the storage layer accepts the product with the larger stock. *)
Theorem decrease_stock_negative_quantity
    (s : Stored Product.t) (q : Z) (env : Env) :
  0 <= Product.stock (self s) -> q < 0 ->
  Product.stock (self (after (Product.decrease_stock q env s)))
  = Product.stock (self s) + - q /\
  Product.stock (self s)
  < Product.stock (self (after (Product.decrease_stock q env s))) /\
  (result (Product.decrease_stock q env s) = Returns true
   <-> refusal env (Product.set_stock (Product.stock (self s) - q) (self s))
       = None).
Proof.
  intros Hs Hq.
  assert (Hle : q <= Product.stock (self s)) by lia.
  rewrite (decrease_stock_stock q env s Hle).
  split; [lia |]. split; [lia |].
  rewrite (decrease_stock_result q env s Hle).
  destruct (refusal env _); split; intros H; try reflexivity; discriminate.
Qed.

Lemma decrease_stock_negative_quantity_witness :
  Product.stock (self (after (Product.decrease_stock (-4) noon
                                (product_of 5)))) = 9 /\
  result (Product.decrease_stock (-4) noon (product_of 5)) = Returns true.
Proof.
  assert (H5 : 0 <= Product.stock (self (product_of 5)))
    by (vm_compute; discriminate).
  assert (H4 : -4 < 0) by reflexivity.
  pose proof (decrease_stock_negative_quantity (product_of 5) (-4) noon H5 H4)
    as [Hstock [_ Hr]].
  split; [exact Hstock | apply Hr; reflexivity].
Defined.

Lemma decrease_stock_keeps_active
    (s : Stored Product.t) (q : Z) (env : Env) :
  Product.is_active (self (after (Product.decrease_stock q env s)))
  = Product.is_active (self s).
Proof.
  destruct (Z_lt_le_dec (Product.stock (self s)) q) as [Hlt | Hle].
  - rewrite (decrease_stock_refuses q env s Hlt). reflexivity.
  - rewrite (decrease_stock_after q env s Hle).
    now destruct (restocked_save_fields (Product.stock (self s) - q) env s)
      as [_ [_ [_ [_ Hactive]]]].
Qed.

(** X10: an available product is still available after
    [decrease_stock(q)], q >= 0, unless q is exactly its stock: a smaller
    quantity leaves stock, a larger one is refused, and the whole stock
    sells the product out. *)
Theorem availability_after_decrease
    (s : Stored Product.t) (q : Z) (env : Env) :
  Product.is_available (self s) = true -> 0 <= q ->
  (Product.is_available (self (after (Product.decrease_stock q env s))) = true
   <-> q <> Product.stock (self s)).
Proof.
  unfold Product.is_available at 1. intros Hav Hq.
  apply andb_true_iff in Hav. destruct Hav as [Hact Hpos].
  apply Z.ltb_lt in Hpos.
  unfold Product.is_available.
  rewrite decrease_stock_keeps_active, Hact, andb_true_l, Z.ltb_lt.
  destruct (Z_lt_le_dec (Product.stock (self s)) q) as [Hlt | Hle].
  - rewrite (decrease_stock_refuses q env s Hlt). unfold after. simpl. lia.
  - rewrite (decrease_stock_stock q env s Hle). lia.
Qed.

Lemma availability_after_decrease_witness :
  Product.is_available
    (self (after (Product.decrease_stock 5 noon (product_of 5)))) <> true /\
  Product.is_available
    (self (after (Product.decrease_stock 4 noon (product_of 5)))) = true.
Proof.
  assert (Hav : Product.is_available (self (product_of 5)) = true)
    by reflexivity.
  split.
  - intros Hstill.
    apply (proj1 (availability_after_decrease (product_of 5) 5 noon Hav
                    ltac:(lia)) Hstill).
    reflexivity.
  - apply (proj2 (availability_after_decrease (product_of 5) 4 noon Hav
                    ltac:(lia))).
    vm_compute. discriminate.
Defined.

(** ** Product: the stock in the row *)

Lemma restocked_save_stored (n : Z) (env : Env) (s : Stored Product.t) :
  stored_stock_ok s ->
  stored_stock_ok (after (Product.save env (restocked n s))).
Proof.
  intros Hs. unfold stored_stock_ok.
  pose proof (product_save_row env (restocked n s)) as Hrow.
  destruct (refusal env (self (restocked n s))) as [e |] eqn:Hacc.
  - rewrite Hrow. exact Hs.
  - destruct Hrow as [r [Hr Hstock]]. rewrite Hr, Hstock.
    now apply (accepted_stock_nonneg env).
Qed.

Lemma product_perform_after
    (c : Product.Call) (env : Env) (s : Stored Product.t) :
  after (Product.perform c env s)
  = match c with
    | Product.Decrease q => after (Product.decrease_stock q env s)
    | Product.Increase q => after (Product.increase_stock q env s)
    end.
Proof.
  destruct c as [q | q]; simpl; [| reflexivity].
  unfold bind, after.
  destruct (Product.decrease_stock q env s) as [[b | e] s']; reflexivity.
Qed.

Lemma product_perform_stored
    (c : Product.Call) (env : Env) (s : Stored Product.t) :
  stored_stock_ok s -> stored_stock_ok (after (Product.perform c env s)).
Proof.
  intros Hs. rewrite product_perform_after. destruct c as [q | q].
  - destruct (Z_lt_le_dec (Product.stock (self s)) q) as [Hlt | Hle].
    + now rewrite (decrease_stock_refuses q env s Hlt).
    + rewrite (decrease_stock_after q env s Hle).
      now apply restocked_save_stored.
  - rewrite increase_stock_saves. now apply restocked_save_stored.
Qed.

(** X18: the stock that the database holds is never negative: if the row
    of a product, where it has one, holds a stock >= 0, it does so after
    every sequence of [decrease_stock] and [increase_stock] calls, with any
    quantities: a save that would write a negative stock is refused and
    leaves the row as it was. *)
Theorem stored_stock_never_negative
    (calls : list (Env * Product.Call)) (s : Stored Product.t) :
  stored_stock_ok s -> stored_stock_ok (Product.run calls s).
Proof.
  revert s. induction calls as [| [env c] rest IH]; intros s Hs; simpl.
  - exact Hs.
  - apply IH. now apply product_perform_stored.
Qed.

Lemma stored_stock_never_negative_witness :
  stored_stock_ok
    (Product.run [(noon, Product.Increase (-6));
                  (noon, Product.Decrease 2);
                  (noon, Product.Decrease (-3))]
                 (stocked 5)).
Proof.
  apply (stored_stock_never_negative _ (stocked 5)).
  vm_compute. discriminate.
Defined.

(** ** OrderItem: saving *)

Lemma order_item_model_save (env : Env) (s : Stored OrderItem.t) :
  Model_save env s
  = match prepare (self s) with
    | Raises e => (Raises e, s)
    | Returns r =>
        match execute env r with
        | Some e => (Raises e, s)
        | None => (Returns tt, {| self := self s; row := Some r |})
        end
    end.
Proof.
  unfold Model_save. cbn [pre_save OrderItem.model]. destruct s as [i r0].
  cbn [self row].
  destruct (prepare i) as [r | e].
  - destruct (execute env r); reflexivity.
  - destruct (adding {| self := i; row := r0 |}); reflexivity.
Qed.

(** What is written of an order item: its decimals at two places. *)
Lemma order_item_prepare (i r : OrderItem.t) :
  prepare i = Returns r ->
  r = OrderItem.mk (OrderItem.order i) (OrderItem.product i)
        (OrderItem.quantity i)
        (Decimal.quantize 2 (OrderItem.price i))
        (Decimal.quantize 2 (OrderItem.total_price i)).
Proof.
  cbn [prepare OrderItem.model]. unfold decimal_column.
  destruct (_ <? _); [| discriminate].
  destruct (_ <? _); [| discriminate].
  now intros [= <-].
Qed.

Lemma order_item_save_overflows (env : Env) (s : Stored OrderItem.t) :
  (Decimal.of_int (OrderItem.quantity (self s)) * OrderItem.price (self s))%D
  = None ->
  OrderItem.save env s = (Raises Overflow, s).
Proof.
  intros Hmul. unfold OrderItem.save.
  unfold bind at 1. unfold this. unfold bind at 1. rewrite Hmul.
  reflexivity.
Qed.

Lemma order_item_save_saves
    (d : Decimal.t) (env : Env) (s : Stored OrderItem.t) :
  (Decimal.of_int (OrderItem.quantity (self s)) * OrderItem.price (self s))%D
  = Some d ->
  OrderItem.save env s = Model_save env (totalled d s).
Proof.
  intros Hmul. unfold OrderItem.save.
  unfold bind at 1. unfold this. unfold bind at 1. rewrite Hmul.
  reflexivity.
Qed.

(** The total that a caller supplied plays no part. *)
Lemma totalled_twice (d supplied : Decimal.t) (s : Stored OrderItem.t) :
  totalled d (totalled supplied s) = totalled d s.
Proof. reflexivity. Qed.

Lemma model_save_totalled
    (d : Decimal.t) (env : Env) (s : Stored OrderItem.t) :
  OrderItem.total_price (self (after (Model_save env (totalled d s)))) = d /\
  OrderItem.quantity (self (after (Model_save env (totalled d s))))
  = OrderItem.quantity (self s) /\
  OrderItem.price (self (after (Model_save env (totalled d s))))
  = OrderItem.price (self s) /\
  result (Model_save env (totalled d s))
  = match refusal env (OrderItem.set_total_price d (self s)) with
    | None => Returns tt
    | Some e => Raises e
    end /\
  match refusal env (OrderItem.set_total_price d (self s)) with
  | None =>
      row (after (Model_save env (totalled d s)))
      = Some (OrderItem.mk (OrderItem.order (self s))
                (OrderItem.product (self s)) (OrderItem.quantity (self s))
                (Decimal.quantize 2 (OrderItem.price (self s)))
                (Decimal.quantize 2 d))
  | Some _ => after (Model_save env (totalled d s)) = totalled d s
  end.
Proof.
  rewrite order_item_model_save. unfold refusal.
  change (self (totalled d s)) with (OrderItem.set_total_price d (self s)).
  destruct (prepare (OrderItem.set_total_price d (self s))) as [r | e] eqn:Hp.
  - apply order_item_prepare in Hp.
    cbn [OrderItem.set_total_price OrderItem.order OrderItem.product
         OrderItem.quantity OrderItem.price OrderItem.total_price] in Hp.
    destruct (execute env r) as [e |]; repeat split.
    unfold after. cbn [snd row]. now rewrite Hp.
  - repeat split.
Qed.

(** The claim C5 as the specification words it fails: seven items at
    1.428571428571428571428571429 are saved with a total of
    10.00000000000000000000000000, less than seven times the price; and of
    four items at 0.005 the row holds the price 0.00 and the total 0.02. *)
Lemma order_item_total_recomputed_counterexample :
  (result (OrderItem.save noon
             (line 7 (dec 1428571428571428571428571429 (-27)) (dec 0 0)))
   = Returns tt /\
   (OrderItem.total_price
      (self (after (OrderItem.save noon
                      (line 7 (dec 1428571428571428571428571429 (-27))
                              (dec 0 0)))))
    < Decimal.times (Decimal.of_int 7)
        (dec 1428571428571428571428571429 (-27)))%D)
  /\
  (result (OrderItem.save noon (line 4 (dec 5 (-3)) (dec 0 0))) = Returns tt /\
   row (after (OrderItem.save noon (line 4 (dec 5 (-3)) (dec 0 0))))
   = Some (OrderItem.mk 1 1 4 (dec 0 (-2)) (dec 2 (-2)))).
Proof. vm_compute. repeat split. Qed.

(** C5, amended: for every order item and every save, whatever
    [total_price] the caller had put there, when the product quantity x
    price does not overflow [save] assigns it to [total_price], whether or
    not the row is then written; the product is the one Decimal computes,
    the exact product whenever that has at most 28 digits and an exponent
    within the range; quantity and price are as they were.  The save
    returns exactly when the storage layer accepts the item, and the row it
    writes holds the price and the total at two places.  When the product
    overflows the save raises and changes nothing. *)
Theorem order_item_total_recomputed
    (s : Stored OrderItem.t) (supplied : Decimal.t) (env : Env) :
  (forall d,
     (Decimal.of_int (OrderItem.quantity (self s))
      * OrderItem.price (self s))%D = Some d ->
     OrderItem.total_price
       (self (after (OrderItem.save env (totalled supplied s)))) = d /\
     (result (OrderItem.save env (totalled supplied s)) = Returns tt
      <-> refusal env (OrderItem.set_total_price d (self s)) = None) /\
     (result (OrderItem.save env (totalled supplied s)) = Returns tt ->
      row (after (OrderItem.save env (totalled supplied s)))
      = Some (OrderItem.mk (OrderItem.order (self s))
                (OrderItem.product (self s)) (OrderItem.quantity (self s))
                (Decimal.quantize 2 (OrderItem.price (self s)))
                (Decimal.quantize 2 d))) /\
     (result (OrderItem.save env (totalled supplied s)) <> Returns tt ->
      row (after (OrderItem.save env (totalled supplied s))) = row s))
  /\
  ((Decimal.of_int (OrderItem.quantity (self s))
    * OrderItem.price (self s))%D = None ->
   OrderItem.save env (totalled supplied s)
   = (Raises Overflow, totalled supplied s))
  /\
  (Z.abs (OrderItem.quantity (self s)
          * Decimal.coeff (OrderItem.price (self s))) < 10 ^ 28 ->
   in_range (Decimal.exponent (OrderItem.price (self s))) ->
   (Decimal.of_int (OrderItem.quantity (self s))
    * OrderItem.price (self s))%D
   = Some (Decimal.times (Decimal.of_int (OrderItem.quantity (self s)))
             (OrderItem.price (self s))))
  /\
  OrderItem.quantity
    (self (after (OrderItem.save env (totalled supplied s))))
  = OrderItem.quantity (self s)
  /\
  OrderItem.price (self (after (OrderItem.save env (totalled supplied s))))
  = OrderItem.price (self s).
Proof.
  split; [| split; [| split]].
  - intros d Hmul.
    rewrite (order_item_save_saves d env (totalled supplied s) Hmul).
    rewrite totalled_twice.
    destruct (model_save_totalled d env s) as [Ht [_ [_ [Hr Hrow]]]].
    split; [exact Ht |]. rewrite Hr.
    destruct (refusal env (OrderItem.set_total_price d (self s))) as [e |].
    + repeat split; try discriminate. intros _. now rewrite Hrow.
    + repeat split; try (intros _; exact Hrow). intros H. now destruct H.
  - intros Hmul. now apply order_item_save_overflows.
  - intros Hfit Hexp. unfold Decimal.mul. apply fix_context_exact.
    + exact Hfit.
    + exact Hexp.
  - destruct (Decimal.of_int (OrderItem.quantity (self s))
              * OrderItem.price (self s))%D as [d |] eqn:Hmul.
    + rewrite (order_item_save_saves d env (totalled supplied s) Hmul).
      rewrite totalled_twice.
      destruct (model_save_totalled d env s) as [_ [Hq [Hp _]]].
      split; assumption.
    + rewrite (order_item_save_overflows env (totalled supplied s) Hmul).
      split; reflexivity.
Qed.

(** Three items at 19.99 with a stale total of 1.00: the total saved is
    59.97, on the object and in the row. *)
Example order_item_total_scenario :
  OrderItem.save noon (line 3 (dec 1999 (-2)) (dec 100 (-2)))
  = (Returns tt,
     {| self := OrderItem.mk 1 1 3 (dec 1999 (-2)) (dec 5997 (-2));
        row := Some (OrderItem.mk 1 1 3 (dec 1999 (-2)) (dec 5997 (-2))) |}).
Proof. reflexivity. Qed.

(** A negative quantity: the total is assigned, the row is refused. *)
Example order_item_negative_quantity_scenario :
  OrderItem.save noon (line (-2) (dec 1999 (-2)) (dec 100 (-2)))
  = (Raises IntegrityError,
     {| self := OrderItem.mk 1 1 (-2) (dec 1999 (-2)) (dec (-3998) (-2));
        row := None |}).
Proof. reflexivity. Qed.

(** ** OrderItem: saving again, and the size of the total *)

(** A save leaves the object as it was, and the row as it was or
    written. *)
Lemma order_item_model_save_state (env : Env) (s : Stored OrderItem.t) :
  after (Model_save env s) = s \/
  exists r, after (Model_save env s) = {| self := self s; row := Some r |}.
Proof.
  rewrite order_item_model_save.
  destruct (prepare (self s)) as [r | e]; [| now left].
  destruct (execute env r); [now left | right]. now exists r.
Qed.

(** Writing again what was written, or refused, ends the same way. *)
Lemma order_item_model_save_again
    (env1 env2 : Env) (s : Stored OrderItem.t) :
  Model_save env2 (after (Model_save env1 s))
  = (result (Model_save env1 s), after (Model_save env1 s)).
Proof.
  rewrite (order_item_model_save env1 s).
  destruct (prepare (self s)) as [r | e] eqn:Hp.
  - destruct (execute env1 r) as [e |] eqn:He;
      unfold after, result; cbn [fst snd];
      rewrite order_item_model_save; cbn [self]; rewrite Hp;
      change (execute env2 r) with (execute env1 r); rewrite He;
      reflexivity.
  - unfold after, result. cbn [fst snd].
    rewrite order_item_model_save, Hp. reflexivity.
Qed.

(** X13: saving an order item a second time ends as the first save ended
    and changes nothing more: the total is not compounded, and the object
    and its row are what the first save left. *)
Theorem order_item_save_idempotent
    (s : Stored OrderItem.t) (env1 env2 : Env) :
  OrderItem.save env2 (after (OrderItem.save env1 s))
  = (result (OrderItem.save env1 s), after (OrderItem.save env1 s)).
Proof.
  destruct (Decimal.of_int (OrderItem.quantity (self s))
            * OrderItem.price (self s))%D as [d |] eqn:Hmul.
  - rewrite (order_item_save_saves d env1 s Hmul).
    destruct (model_save_totalled d env1 s) as [_ [Hq [Hp _]]].
    assert (Hmul' :
      (Decimal.of_int
         (OrderItem.quantity (self (after (Model_save env1 (totalled d s)))))
       * OrderItem.price (self (after (Model_save env1 (totalled d s)))))%D
      = Some d) by (rewrite Hq, Hp; exact Hmul).
    rewrite (order_item_save_saves d env2 _ Hmul').
    assert (Hsame : totalled d (after (Model_save env1 (totalled d s)))
                    = after (Model_save env1 (totalled d s))).
    { destruct (order_item_model_save_state env1 (totalled d s))
        as [Hs | [r Hs]]; rewrite Hs; reflexivity. }
    rewrite Hsame. apply order_item_model_save_again.
  - rewrite (order_item_save_overflows env1 s Hmul).
    unfold after, result. cbn [snd fst].
    now apply order_item_save_overflows.
Qed.

(** X14: for a quantity >= 1 and a unit price > 0, the bounds the
    validators of the two fields name, the total that [save] assigns is at
    least the unit price, and so positive, and for the quantity 0 it is
    zero, when the product has at most 28 digits and the exponent of the
    price is within the range. *)
Theorem order_item_total_bounds (s : Stored OrderItem.t) (env : Env) :
  (0 < OrderItem.price (self s))%D ->
  Z.abs (OrderItem.quantity (self s)
         * Decimal.coeff (OrderItem.price (self s))) < 10 ^ 28 ->
  in_range (Decimal.exponent (OrderItem.price (self s))) ->
  (1 <= OrderItem.quantity (self s) ->
   (OrderItem.price (self s)
    <= OrderItem.total_price (self (after (OrderItem.save env s))))%D /\
   (0 < OrderItem.total_price (self (after (OrderItem.save env s))))%D)
  /\
  (OrderItem.quantity (self s) = 0 ->
   Decimal.coeff (OrderItem.total_price (self (after (OrderItem.save env s))))
   = 0).
Proof.
  intros Hprice Hfit Hexp.
  assert (Hmul :
    (Decimal.of_int (OrderItem.quantity (self s))
     * OrderItem.price (self s))%D
    = Some (Decimal.times (Decimal.of_int (OrderItem.quantity (self s)))
              (OrderItem.price (self s))))
    by (unfold Decimal.mul; now apply fix_context_exact).
  rewrite (order_item_save_saves _ env s Hmul).
  destruct (model_save_totalled
              (Decimal.times (Decimal.of_int (OrderItem.quantity (self s)))
                 (OrderItem.price (self s))) env s) as [Ht _].
  rewrite Ht. apply lt_zero_coeff in Hprice.
  unfold Decimal.times, Decimal.of_int.
  cbn [Decimal.coeff Decimal.exponent]. rewrite Z.add_0_l. split.
  - intros Hq. split.
    + unfold Decimal.le, Decimal.leb, Decimal.common, Decimal.scale.
      cbn [Decimal.coeff Decimal.exponent].
      rewrite Z.min_id, Z.sub_diag, Z.pow_0_r. apply Z.leb_le. nia.
    + apply lt_zero_coeff. cbn [Decimal.coeff]. nia.
  - intros Hq. rewrite Hq. reflexivity.
Qed.

Lemma order_item_total_bounds_witness :
  (dec 1999 (-2)
   <= OrderItem.total_price
        (self (after (OrderItem.save noon
                        (line 3 (dec 1999 (-2)) (dec 100 (-2)))))))%D.
Proof.
  apply (order_item_total_bounds (line 3 (dec 1999 (-2)) (dec 100 (-2))) noon).
  - reflexivity.
  - vm_compute. reflexivity.
  - vm_compute. split; discriminate.
  - vm_compute. discriminate.
Defined.

(** ** Order: the order number *)

Lemma hexdigit_upper (d : Z) :
  Str.is_upper_hex (Str.upper_char (UUID.hexdigit d)) = true.
Proof.
  destruct d as [| p | p]; [reflexivity | | reflexivity].
  do 4 (try destruct p as [p | p |]; try reflexivity).
Qed.

Lemma format_hex_length (width : nat) (i : Z) :
  String.length (UUID.format_hex width i) = width.
Proof. induction width as [| w IH]; simpl; [reflexivity | now rewrite IH]. Qed.

Lemma format_hex_upper (width : nat) (i : Z) :
  Str.all Str.is_upper_hex (Str.upper (UUID.format_hex width i)) = true.
Proof.
  induction width as [| w IH]; [reflexivity |].
  cbn [UUID.format_hex Str.upper Str.all].
  rewrite hexdigit_upper, IH. reflexivity.
Qed.

Lemma upper_length (s : string) :
  String.length (Str.upper s) = String.length s.
Proof. induction s as [| c s IH]; simpl; [reflexivity | now rewrite IH]. Qed.

Lemma upper_prefix (n : nat) (s : string) :
  Str.upper (Str.prefix n s) = Str.prefix n (Str.upper s).
Proof.
  unfold Str.prefix. revert s.
  induction n as [| n IH]; intros [| c s]; simpl; try reflexivity.
  now rewrite IH.
Qed.

Lemma prefix_length (n : nat) (s : string) :
  (n <= String.length s)%nat -> String.length (Str.prefix n s) = n.
Proof.
  unfold Str.prefix. revert s.
  induction n as [| n IH]; intros [| c s] Hn; simpl in *;
    try reflexivity; try lia.
  rewrite IH by lia. reflexivity.
Qed.

Lemma prefix_all (p : ascii -> bool) (n : nat) (s : string) :
  Str.all p s = true -> Str.all p (Str.prefix n s) = true.
Proof.
  unfold Str.prefix. revert s.
  induction n as [| n IH]; intros [| c s] Hs; simpl in *;
    try reflexivity.
  apply andb_true_iff in Hs. destruct Hs as [Hc Hs].
  rewrite Hc, (IH s Hs). reflexivity.
Qed.

(** The token of an order number: eight characters, each an upper-case
    hexadecimal digit. *)
Lemma token_format (i : Z) :
  String.length (Str.upper (Str.prefix 8 (UUID.hex i))) = 8%nat /\
  Str.all Str.is_upper_hex (Str.upper (Str.prefix 8 (UUID.hex i))) = true.
Proof.
  split.
  - rewrite upper_length. apply prefix_length.
    unfold UUID.hex. rewrite format_hex_length. lia.
  - rewrite upper_prefix. apply prefix_all. apply format_hex_upper.
Qed.

Lemma falsy_empty (s : string) : Str.falsy s = true <-> s = EmptyString.
Proof. destruct s; simpl; split; congruence. Qed.

Lemma order_save_set (env : Env) (s : Stored Order.t) :
  Order.order_number (self s) <> EmptyString ->
  Order.save env s = Model_save env s.
Proof.
  intros Hset. unfold Order.save, bind, this.
  destruct (Str.falsy (Order.order_number (self s))) eqn:Hf.
  - apply falsy_empty in Hf. contradiction.
  - reflexivity.
Qed.

Lemma order_save_unset (env : Env) (s : Stored Order.t) :
  Order.order_number (self s) = EmptyString ->
  Order.save env s
  = Model_save env
      {| self := Order.set_order_number
                   (String.append "ORD-"
                      (Str.upper
                         (Str.prefix 8
                            (UUID.hex (UUID.uuid4_of (urandom16 env))))))
                   (self s);
         row := row s |}.
Proof.
  intros Hunset. unfold Order.save, bind, this. rewrite Hunset. reflexivity.
Qed.

Lemma model_save_order_number (env : Env) (s : Stored Order.t) :
  Order.order_number (self (after (Model_save env s)))
  = Order.order_number (self s).
Proof.
  unfold Model_save. cbn [prepare execute pre_save Order.model].
  destruct (decimal_column 10 2 _) as [d | e].
  - destruct (bool_decide _); reflexivity.
  - destruct (adding s); reflexivity.
Qed.

Lemma order_save_keeps (env : Env) (s : Stored Order.t) :
  Order.order_number (self s) <> EmptyString ->
  Order.order_number (self (after (Order.save env s)))
  = Order.order_number (self s).
Proof.
  intros Hset. rewrite (order_save_set env s Hset).
  apply model_save_order_number.
Qed.

Lemma order_save_all_keeps (envs : list Env) (s : Stored Order.t) :
  Order.order_number (self s) <> EmptyString ->
  Order.order_number (self (Order.save_all envs s))
  = Order.order_number (self s).
Proof.
  revert s. induction envs as [| env rest IH]; intros s Hset; simpl.
  - reflexivity.
  - rewrite IH; rewrite (order_save_keeps env s Hset);
      [reflexivity | exact Hset].
Qed.

(** C8: [Order.save] leaves an order number that is set as it is, on that
    save and on every later one; when the order number is unset it assigns
    [ORD-] followed by the first eight hexadecimal digits, in upper case, of
    a random UUID, and later saves keep that number. *)
Theorem order_number_assigned_once
    (s : Stored Order.t) (env : Env) (later : list Env) :
  (Order.order_number (self s) <> EmptyString ->
   Order.order_number (self (after (Order.save env s)))
   = Order.order_number (self s) /\
   Order.order_number (self (Order.save_all later (after (Order.save env s))))
   = Order.order_number (self s))
  /\
  (Order.order_number (self s) = EmptyString ->
   exists token : string,
     token = Str.upper (Str.prefix 8 (UUID.hex (UUID.uuid4_of (urandom16 env))))
     /\ String.length token = 8%nat
     /\ Str.all Str.is_upper_hex token = true
     /\ Order.order_number (self (after (Order.save env s)))
        = String.append "ORD-" token
     /\ Order.order_number
          (self (Order.save_all later (after (Order.save env s))))
        = String.append "ORD-" token).
Proof.
  split.
  - intros Hset. pose proof (order_save_keeps env s Hset) as Hkept.
    split; [exact Hkept |].
    rewrite order_save_all_keeps; [exact Hkept | now rewrite Hkept].
  - intros Hunset.
    destruct (token_format (UUID.uuid4_of (urandom16 env))) as [Hlen Hhex].
    eexists. split; [reflexivity |]. split; [exact Hlen |].
    split; [exact Hhex |].
    assert (Hnew : Order.order_number (self (after (Order.save env s)))
                   = String.append "ORD-"
                       (Str.upper
                          (Str.prefix 8
                             (UUID.hex (UUID.uuid4_of (urandom16 env))))))
      by (rewrite (order_save_unset env s Hunset), model_save_order_number;
          reflexivity).
    split; [exact Hnew |].
    rewrite order_save_all_keeps; [exact Hnew |].
    rewrite Hnew. discriminate.
Qed.

(** A first save with the random bytes 3b 9a ca 07 ... gives [ORD-3B9ACA07];
    a second save, with other random bytes, keeps it. *)
Example order_number_scenario :
  let first := draw 1700000000 (0x3b9aca07 * 2 ^ 96 + 12345) in
  let second := draw 1700000060 (0xdeadbeef * 2 ^ 96) in
  let s1 := after (Order.save first (order_of EmptyString)) in
  Order.order_number (self s1) = "ORD-3B9ACA07"%string /\
  Order.order_number (self (after (Order.save second s1)))
  = "ORD-3B9ACA07"%string.
Proof. vm_compute. split; reflexivity. Qed.

Lemma order_number_assigned_once_witness :
  Order.order_number (self (order_of "ORD-0000ABCD")) <> EmptyString /\
  Order.order_number
    (self (after (Order.save (draw 1700000000 77)
                    (order_of "ORD-0000ABCD"))))
  = "ORD-0000ABCD"%string.
Proof.
  assert (Hset : Order.order_number (self (order_of "ORD-0000ABCD"))
                 <> EmptyString) by discriminate.
  split; [exact Hset |].
  exact (proj1 (proj1 (order_number_assigned_once
                         (order_of "ORD-0000ABCD") (draw 1700000000 77) [])
                      Hset)).
Defined.

(** ** Order: when two order numbers coincide *)

Lemma shifted_constant_bit (c n : Z) :
  0 <= c -> Z.log2 c < 96 -> 0 <= n -> Z.testbit c (n + 96) = false.
Proof. intros Hc Hlog Hn. apply Z.bits_above_log2; lia. Qed.

(** Forcing the version and the variant leaves the first four bytes of the
    random draw alone. *)
Lemma uuid4_first_four_bytes (random : Z) :
  Z.shiftr (UUID.uuid4_of random) 96 = first_four_bytes random.
Proof.
  unfold first_four_bytes. rewrite <- Z.shiftr_div_pow2 by lia.
  apply Z.bits_inj'. intros n Hn. rewrite !Z.shiftr_spec by lia.
  unfold UUID.uuid4_of. cbv zeta.
  rewrite Z.lor_spec, Z.land_spec, Z.lor_spec, Z.land_spec.
  rewrite !Z.lnot_spec by lia.
  rewrite (shifted_constant_bit (Z.shiftl 4 76) n),
    (shifted_constant_bit (Z.shiftl 0xf000 64) n),
    (shifted_constant_bit (Z.shiftl 0x8000 48) n),
    (shifted_constant_bit (Z.shiftl 0xc000 48) n)
    by first [exact Hn | vm_compute; discriminate | vm_compute; reflexivity].
  rewrite !andb_true_r, !orb_false_r. reflexivity.
Qed.

Lemma prefix_format_hex (n m : nat) (i : Z) :
  Str.prefix n (UUID.format_hex (n + m) i)
  = UUID.format_hex n (Z.shiftr i (4 * Z.of_nat m)).
Proof.
  unfold Str.prefix. induction n as [| n IH].
  - destruct (UUID.format_hex (0 + m) i); reflexivity.
  - cbn [Nat.add UUID.format_hex substring]. rewrite IH.
    rewrite Z.shiftr_shiftr by lia.
    replace (4 * Z.of_nat (n + m)) with (4 * Z.of_nat m + 4 * Z.of_nat n)
      by lia.
    reflexivity.
Qed.

Lemma hex_value_digit (d : Z) :
  0 <= d < 16 -> hex_value (Str.upper_char (UUID.hexdigit d)) = d.
Proof.
  intros Hd. destruct d as [| p | p]; [reflexivity | | lia].
  do 4 (try destruct p as [p | p |]); try reflexivity; lia.
Qed.

Lemma nibble_bounds (a : Z) : 0 <= Z.land a 15 < 16.
Proof.
  change 15 with (Z.ones 4). rewrite Z.land_ones by lia.
  apply Z.mod_pos_bound. reflexivity.
Qed.

Lemma format_hex_injective (n : nat) (x y : Z) :
  Str.upper (UUID.format_hex n x) = Str.upper (UUID.format_hex n y) ->
  x mod 2 ^ (4 * Z.of_nat n) = y mod 2 ^ (4 * Z.of_nat n).
Proof.
  induction n as [| n IH]; intros Heq.
  - now rewrite !Z.mod_1_r.
  - cbn [UUID.format_hex Str.upper] in Heq.
    injection Heq as Hdigit Hrest. apply IH in Hrest.
    apply (f_equal hex_value) in Hdigit.
    rewrite !hex_value_digit in Hdigit by apply nibble_bounds.
    change 15 with (Z.ones 4) in Hdigit.
    rewrite !Z.land_ones, !Z.shiftr_div_pow2 in Hdigit by lia.
    replace (4 * Z.of_nat (S n)) with (4 * Z.of_nat n + 4) by lia.
    rewrite Z.pow_add_r by lia.
    rewrite !Z.rem_mul_r by lia.
    rewrite Hrest, Hdigit. reflexivity.
Qed.

Lemma first_four_bytes_bounds (random : Z) :
  0 <= first_four_bytes random < 2 ^ 32.
Proof.
  unfold first_four_bytes.
  pose proof (Z.mod_pos_bound random (2 ^ 128) ltac:(lia)) as Hr.
  split.
  - apply Z.div_pos; lia.
  - apply Z.div_lt_upper_bound; [lia |].
    change (2 ^ 96 * 2 ^ 32) with (2 ^ 128). lia.
Qed.

Lemma token_first_four_bytes (random : Z) :
  Str.upper (Str.prefix 8 (UUID.hex (UUID.uuid4_of random)))
  = Str.upper (UUID.format_hex 8 (first_four_bytes random)).
Proof.
  unfold UUID.hex. rewrite (prefix_format_hex 8 24).
  change (4 * Z.of_nat 24) with 96.
  now rewrite uuid4_first_four_bytes.
Qed.

Lemma append_injective (p a b : string) :
  String.append p a = String.append p b -> a = b.
Proof.
  induction p as [| c p IH]; simpl; intros Heq; [exact Heq |].
  injection Heq as Heq. now apply IH.
Qed.

Lemma token_injective (x y : Z) :
  0 <= x < 2 ^ 32 -> 0 <= y < 2 ^ 32 ->
  Str.upper (UUID.format_hex 8 x) = Str.upper (UUID.format_hex 8 y) ->
  x = y.
Proof.
  intros Hx Hy Heq. apply format_hex_injective in Heq.
  change (4 * Z.of_nat 8) with 32 in Heq.
  rewrite !Z.mod_small in Heq by assumption. exact Heq.
Qed.

(** A save of an order whose number another row bears is refused. *)
Lemma model_save_collides (env : Env) (s : Stored Order.t) :
  Order.order_number (self s) ∈ order_numbers env ->
  (exists e, result (Model_save env s) = Raises e) /\
  row (after (Model_save env s)) = row s /\
  (forall d, decimal_column 10 2 (Order.total_price (self s)) = Returns d ->
             result (Model_save env s) = Raises IntegrityError).
Proof.
  intros Hin. unfold Model_save.
  cbn [prepare execute pre_save Order.model Order.total_price].
  destruct (decimal_column 10 2 (Order.total_price (self s))) as [d | e].
  - cbn [Order.order_number Order.set_total_price].
    rewrite (bool_decide_eq_true_2 _ Hin).
    split; [now exists IntegrityError |]. split; [reflexivity |].
    intros d' _. reflexivity.
  - split; [now exists e |]. split; [| intros d' Hd; discriminate].
    destruct (adding s); reflexivity.
Qed.

Lemma order_save_generates (env : Env) (s : Stored Order.t) :
  Order.order_number (self s) = EmptyString ->
  Order.order_number (self (after (Order.save env s))) = generated_number env.
Proof.
  intros Hunset. rewrite (order_save_unset env s Hunset).
  rewrite model_save_order_number. reflexivity.
Qed.

Lemma generated_numbers_coincide (env1 env2 : Env) :
  generated_number env1 = generated_number env2
  <-> first_four_bytes (urandom16 env1) = first_four_bytes (urandom16 env2).
Proof.
  unfold generated_number. rewrite !token_first_four_bytes.
  pose proof (first_four_bytes_bounds (urandom16 env1)) as Hx.
  pose proof (first_four_bytes_bounds (urandom16 env2)) as Hy.
  revert Hx Hy.
  generalize (first_four_bytes (urandom16 env1)) as x.
  generalize (first_four_bytes (urandom16 env2)) as y.
  intros y x Hx Hy. split.
  - intros Heq. apply append_injective in Heq.
    now apply token_injective.
  - intros Heq. now rewrite Heq.
Qed.

(** X12: [save] gives two orders without an order number the same number
    exactly when the two random draws agree on their first four bytes: the
    other twelve bytes play no part.  It draws once: when the draws agree
    and the table already holds the number of the first order, the save of
    the second raises, an IntegrityError when the total fits its column,
    and writes no row, so that no two rows share a number. *)
Theorem order_numbers_coincide
    (s1 s2 : Stored Order.t) (env1 env2 : Env) :
  Order.order_number (self s1) = EmptyString ->
  Order.order_number (self s2) = EmptyString ->
  (Order.order_number (self (after (Order.save env1 s1)))
   = Order.order_number (self (after (Order.save env2 s2)))
   <-> first_four_bytes (urandom16 env1) = first_four_bytes (urandom16 env2))
  /\
  (first_four_bytes (urandom16 env1) = first_four_bytes (urandom16 env2) ->
   Order.order_number (self (after (Order.save env1 s1)))
   ∈ order_numbers env2 ->
   (exists e, result (Order.save env2 s2) = Raises e) /\
   row (after (Order.save env2 s2)) = row s2 /\
   (forall d,
      decimal_column 10 2 (Order.total_price (self s2)) = Returns d ->
      result (Order.save env2 s2) = Raises IntegrityError)).
Proof.
  intros H1 H2.
  rewrite (order_save_generates env1 s1 H1), (order_save_generates env2 s2 H2).
  split; [apply generated_numbers_coincide |].
  intros Hbytes Hin. apply generated_numbers_coincide in Hbytes.
  rewrite Hbytes in Hin. rewrite (order_save_unset env2 s2 H2).
  apply (model_save_collides env2
           {| self := Order.set_order_number (generated_number env2) (self s2);
              row := row s2 |}).
  exact Hin.
Qed.

Lemma order_numbers_coincide_witness :
  Order.order_number
    (self (after (Order.save (draw 1700000000 (0x3b9aca07 * 2 ^ 96 + 5))
                    (order_of EmptyString))))
  = Order.order_number
      (self (after (Order.save (draw 1700000060 (0x3b9aca07 * 2 ^ 96 + 77))
                      (order_of EmptyString)))).
Proof.
  apply (order_numbers_coincide
           (order_of EmptyString) (order_of EmptyString));
    reflexivity.
Defined.

(** The first order is written; the second, drawing the same four bytes
    while the table holds the first, is refused and keeps the number on the
    object. *)
Example order_number_collision_scenario :
  result (Order.save (draw 1700000000 (0x3b9aca07 * 2 ^ 96 + 5))
            (order_of EmptyString)) = Returns tt /\
  result (Order.save (taken 1700000060 (0x3b9aca07 * 2 ^ 96 + 77)
                        ["ORD-3B9ACA07"%string])
            (order_of EmptyString)) = Raises IntegrityError /\
  Order.order_number
    (self (after (Order.save (taken 1700000060 (0x3b9aca07 * 2 ^ 96 + 77)
                                ["ORD-3B9ACA07"%string])
                    (order_of EmptyString)))) = "ORD-3B9ACA07"%string /\
  row (after (Order.save (taken 1700000060 (0x3b9aca07 * 2 ^ 96 + 77)
                            ["ORD-3B9ACA07"%string])
                (order_of EmptyString))) = None.
Proof. vm_compute. repeat split. Qed.

(** ** Order: the cancel and refund windows *)

Lemma among_cons (s v : string) (values : list string) :
  Str.among s (v :: values) = String.eqb s v || Str.among s values.
Proof. reflexivity. Qed.

Lemma among_nil (s : string) : Str.among s [] = false.
Proof. reflexivity. Qed.

Lemma model_save_status (env : Env) (s : Stored Order.t) :
  Order.status (self (after (Model_save env s))) = Order.status (self s).
Proof.
  unfold Model_save. cbn [prepare execute pre_save Order.model].
  destruct (decimal_column 10 2 _) as [d | e].
  - destruct (bool_decide _); reflexivity.
  - destruct (adding s); reflexivity.
Qed.

Lemma order_save_status (env : Env) (s : Stored Order.t) :
  Order.status (self (after (Order.save env s))) = Order.status (self s).
Proof.
  destruct (Order.order_number (self s)) as [| c n] eqn:Hn.
  - rewrite (order_save_unset env s Hn). now rewrite model_save_status.
  - rewrite (order_save_set env s) by (rewrite Hn; discriminate).
    apply model_save_status.
Qed.

(** X11: an order can be both cancelled and refunded in exactly one
    status, paid; it can be neither cancelled nor refunded exactly when its
    status is none of pending, paid, shipped and delivered: when it is
    canceled or refunded, and also when the status is a string outside the
    declared choices, which nothing in [save] rules out; and saving changes
    neither answer. *)
Theorem cancel_and_refund_windows (s : Stored Order.t) (env : Env) :
  (Order.can_cancel (self s) && Order.can_refund (self s) = true
   <-> Order.status (self s) = Order.Status.PAID)
  /\
  (Order.can_cancel (self s) || Order.can_refund (self s) = false
   <-> Order.status (self s) <> Order.Status.PENDING /\
       Order.status (self s) <> Order.Status.PAID /\
       Order.status (self s) <> Order.Status.SHIPPED /\
       Order.status (self s) <> Order.Status.DELIVERED)
  /\
  Order.can_cancel (self (after (Order.save env s)))
  = Order.can_cancel (self s)
  /\
  Order.can_refund (self (after (Order.save env s)))
  = Order.can_refund (self s).
Proof.
  unfold Order.can_cancel, Order.can_refund.
  rewrite order_save_status, !among_cons, !among_nil, !orb_false_r.
  generalize (Order.status (self s)) as status. intros status.
  destruct (String.eqb_spec status Order.Status.PENDING) as [Hpe | Hpe];
    destruct (String.eqb_spec status Order.Status.PAID) as [Hpa | Hpa];
    destruct (String.eqb_spec status Order.Status.SHIPPED) as [Hsh | Hsh];
    destruct (String.eqb_spec status Order.Status.DELIVERED) as [Hde | Hde];
    cbn [andb orb]; repeat split; try congruence; try tauto;
    try (subst status; discriminate).
Qed.

(** The statuses one by one, and one that is not among the choices. *)
Example cancel_and_refund_scenario :
  map (fun status =>
         (Order.can_cancel (Order.mk 1 "ORD-1" (dec 100 (-2)) status
                                     "Deliver soon" None None),
          Order.can_refund (Order.mk 1 "ORD-1" (dec 100 (-2)) status
                                     "Deliver soon" None None)))
      [Order.Status.PENDING; Order.Status.PAID; Order.Status.SHIPPED;
       Order.Status.DELIVERED; Order.Status.CANCELED;
       Order.Status.REFUNDED; "archived"%string]
  = [(true, false); (true, true); (false, true); (false, true);
     (false, false); (false, false); (false, false)].
Proof. reflexivity. Qed.

(** ** Category: the level *)

Lemma level_no_stack (c : Category.t) (env : Env) (table : gmap Z Category.t) :
  Category.level 0 c env table = (Raises RecursionError, table).
Proof. reflexivity. Qed.

Lemma level_root
    (depth : nat) (c : Category.t) (env : Env) (table : gmap Z Category.t) :
  Category.parent_id c = None ->
  Category.level (S depth) c env table = (Returns 0, table).
Proof.
  intros Hc. simpl. unfold bind, Category.is_root, bind, Category.parent.
  rewrite Hc. reflexivity.
Qed.

Lemma level_child
    (depth : nat) (c p : Category.t) (pk : Z) (env : Env)
    (table : gmap Z Category.t) :
  Category.parent_id c = Some pk -> table !! pk = Some p ->
  Category.level (S depth) c env table
  = match Category.level depth p env table with
    | (Returns n, table') => (Returns (n + 1), table')
    | (Raises e, table') => (Raises e, table')
    end.
Proof.
  intros Hc Hp. simpl.
  unfold bind, Category.is_root, bind, Category.parent, bind, get, ret.
  rewrite Hc, Hp. cbv beta iota. rewrite Hp. reflexivity.
Qed.

Lemma level_dangling
    (depth : nat) (c : Category.t) (pk : Z) (env : Env)
    (table : gmap Z Category.t) :
  Category.parent_id c = Some pk -> table !! pk = None ->
  Category.level (S depth) c env table = (Raises DoesNotExist, table).
Proof.
  intros Hc Hp. simpl.
  unfold bind, Category.is_root, bind, Category.parent, bind, get.
  rewrite Hc, Hp. reflexivity.
Qed.

(** With a bound on the recursion greater than the length of the chain,
    [level] returns that length and leaves the table alone. *)
Lemma level_chain
    (table : gmap Z Category.t) (c : Category.t) (n : nat) (env : Env) :
  Category.chain table c n ->
  forall depth : nat, (n < depth)%nat ->
  Category.level depth c env table = (Returns (Z.of_nat n), table).
Proof.
  induction 1 as [c Hc | c pk p n Hc Hp Hchain IH]; intros depth Hd.
  - destruct depth as [| depth]; [lia |]. now apply level_root.
  - destruct depth as [| depth]; [lia |].
    rewrite (level_child depth c p pk env table Hc Hp).
    rewrite (IH depth) by lia. f_equal. f_equal. lia.
Qed.

(** A chain has one length. *)
Lemma chain_functional
    (table : gmap Z Category.t) (c : Category.t) (n m : nat) :
  Category.chain table c n -> Category.chain table c m -> n = m.
Proof.
  intros Hn. revert m.
  induction Hn as [c Hc | c pk p n Hc Hp Hchain IH]; intros m Hm.
  - inversion Hm as [c' Hc' | c' pk' p' m' Hc' Hp' Hm']; subst;
      [reflexivity | congruence].
  - inversion Hm as [c' Hc' | c' pk' p' m' Hc' Hp' Hm']; subst;
      [congruence |].
    f_equal. apply IH.
    assert (pk' = pk) by congruence. subst pk'.
    assert (p' = p) by congruence. subst p'. exact Hm'.
Qed.

(** C9: for every category whose parent chain is finite and acyclic (it
    reaches a root after n steps), [level], given room on the stack,
    returns: 0 when the category is a root, and 1 + the level of its parent
    otherwise; so 0 for a root, 1 for a child of a root, 2 for a
    grandchild. *)
Theorem level_recurrence
    (table : gmap Z Category.t) (c : Category.t) (n depth : nat) (env : Env) :
  Category.chain table c n -> (n < depth)%nat ->
  result (Category.level depth c env table) = Returns (Z.of_nat n)
  /\ (Category.parent_id c = None ->
      result (Category.level depth c env table) = Returns 0)
  /\ (forall (pk : Z) (p : Category.t),
        Category.parent_id c = Some pk -> table !! pk = Some p ->
        exists m : Z,
          result (Category.level (Nat.pred depth) p env table) = Returns m /\
          result (Category.level depth c env table) = Returns (1 + m))
  /\ (forall (pk : Z) (p : Category.t),
        Category.parent_id c = Some pk -> table !! pk = Some p ->
        Category.parent_id p = None ->
        result (Category.level depth c env table) = Returns 1)
  /\ (forall (pk pk' : Z) (p g : Category.t),
        Category.parent_id c = Some pk -> table !! pk = Some p ->
        Category.parent_id p = Some pk' -> table !! pk' = Some g ->
        Category.parent_id g = None ->
        result (Category.level depth c env table) = Returns 2).
Proof.
  intros Hchain Hd.
  pose proof (level_chain table c n env Hchain depth Hd) as Hlevel.
  rewrite Hlevel. simpl. split; [reflexivity |].
  split; [| split; [| split]].
  - intros Hc. inversion Hchain; subst; [reflexivity | congruence].
  - intros pk p Hc Hp.
    inversion Hchain as [c' Hc' | c' pk' p' m Hc' Hp' Hm]; subst;
      [congruence |].
    assert (pk' = pk) by congruence. subst pk'.
    assert (p' = p) by congruence. subst p'.
    exists (Z.of_nat m). split.
    + rewrite (level_chain table p m env Hm) by lia. reflexivity.
    + f_equal. lia.
  - intros pk p Hc Hp Hroot.
    assert (Hone : Category.chain table c 1)
      by (eapply Category.chain_child; eauto using Category.chain_root).
    rewrite (chain_functional table c n 1 Hchain Hone). reflexivity.
  - intros pk pk' p g Hc Hp Hp' Hg Hroot.
    assert (Htwo : Category.chain table c 2)
      by (eapply Category.chain_child; eauto;
          eapply Category.chain_child; eauto using Category.chain_root).
    rewrite (chain_functional table c n 2 Hchain Htwo). reflexivity.
Qed.

Lemma catalogue_chain :
  Category.chain catalogue (category_of "optics" (Some 2)) 2.
Proof.
  apply (Category.chain_child catalogue _ 2 (category_of "physics" (Some 1)));
    [reflexivity | reflexivity |].
  apply (Category.chain_child catalogue _ 1 (category_of "science" None));
    [reflexivity | reflexivity |].
  apply Category.chain_root. reflexivity.
Defined.

Lemma level_recurrence_witness :
  Category.chain catalogue (category_of "optics" (Some 2)) 2 /\
  (2 < 1000)%nat /\
  result (Category.level 1000 (category_of "optics" (Some 2)) noon catalogue)
  = Returns 2.
Proof.
  split; [exact catalogue_chain |]. split; [lia |].
  apply (level_recurrence catalogue (category_of "optics" (Some 2)) 2 1000
           noon catalogue_chain).
  lia.
Defined.

(** The levels of the specification's three categories. *)
Example level_scenario :
  result (Category.level 1000 (category_of "science" None) noon catalogue)
  = Returns 0 /\
  result (Category.level 1000 (category_of "physics" (Some 1)) noon catalogue)
  = Returns 1 /\
  result (Category.level 1000 (category_of "optics" (Some 2)) noon catalogue)
  = Returns 2.
Proof. vm_compute. repeat split. Qed.

(** No guard against cycles: a category that is its own parent exhausts
    the recursion, however deep it may go. *)
Lemma level_self_cycle
    (c : Category.t) (pk : Z) (env : Env) (table : gmap Z Category.t) :
  Category.parent_id c = Some pk -> table !! pk = Some c ->
  forall depth : nat,
    Category.level depth c env table = (Raises RecursionError, table).
Proof.
  intros Hc Hp depth. induction depth as [| depth IH]; [reflexivity |].
  rewrite (level_child depth c c pk env table Hc Hp), IH. reflexivity.
Qed.

(** X3: [level] has no guard against cycles: on a category whose parent
    chain leads back to itself in one step, it raises the recursion error
    whatever room the stack has. *)
Theorem level_cycle_exhausts_stack
    (c : Category.t) (pk : Z) (env : Env) (table : gmap Z Category.t)
    (depth : nat) :
  Category.parent_id c = Some pk -> table !! pk = Some c ->
  result (Category.level depth c env table) = Raises RecursionError.
Proof.
  intros Hc Hp. rewrite (level_self_cycle c pk env table Hc Hp depth).
  reflexivity.
Qed.

Lemma level_cycle_exhausts_stack_witness :
  result (Category.level 1000 (category_of "loop" (Some 9)) noon
            (<[9 := category_of "loop" (Some 9)]> catalogue))
  = Raises RecursionError.
Proof.
  apply (level_cycle_exhausts_stack (category_of "loop" (Some 9)) 9);
    reflexivity.
Defined.

(** ** Category: what [level] returns, and how it fails *)

Lemma level_sound
    (table : gmap Z Category.t) (env : Env) (depth : nat) :
  forall (c : Category.t) (z : Z) (table' : gmap Z Category.t),
    Category.level depth c env table = (Returns z, table') ->
    0 <= z /\ Category.chain table c (Z.to_nat z) /\
    (Z.to_nat z < depth)%nat.
Proof.
  induction depth as [| depth IH]; intros c z table' Hlevel.
  - rewrite level_no_stack in Hlevel. discriminate.
  - destruct (Category.parent_id c) as [pk |] eqn:Hc.
    + destruct (table !! pk) as [p |] eqn:Hp.
      * rewrite (level_child depth c p pk env table Hc Hp) in Hlevel.
        destruct (Category.level depth p env table) as [[m | e] t] eqn:Hm;
          [| discriminate].
        injection Hlevel as Hz Ht. subst z.
        destruct (IH p m t Hm) as [Hm0 [Hchain Hdepth]].
        split; [lia |].
        replace (Z.to_nat (m + 1)) with (S (Z.to_nat m)) by lia.
        split; [| lia].
        now apply (Category.chain_child table c pk p).
      * rewrite (level_dangling depth c pk env table Hc Hp) in Hlevel.
        discriminate.
    + rewrite (level_root depth c env table Hc) in Hlevel.
      injection Hlevel as Hz Ht. subst z.
      split; [lia |]. split; [| simpl; lia].
      now apply Category.chain_root.
Qed.

(** X15: [level] returns z, at some bound on the recursion, exactly when
    the parent chain of the category reaches a root after z steps: a
    returned level is never negative, and it is the same at every bound
    that lets the call return. *)
Theorem level_returns_iff
    (table : gmap Z Category.t) (c : Category.t) (env : Env) (z : Z) :
  ((exists depth : nat,
      result (Category.level depth c env table) = Returns z)
   <-> 0 <= z /\ Category.chain table c (Z.to_nat z))
  /\
  (forall (depth depth' : nat) (z' : Z),
     result (Category.level depth c env table) = Returns z ->
     result (Category.level depth' c env table) = Returns z' ->
     z = z').
Proof.
  assert (Hsound : forall (depth : nat) (x : Z),
            result (Category.level depth c env table) = Returns x ->
            0 <= x /\ Category.chain table c (Z.to_nat x)).
  { intros depth x Hr.
    destruct (Category.level depth c env table) as [r table'] eqn:Hlevel.
    simpl in Hr. subst r.
    destruct (level_sound table env depth c x table' Hlevel)
      as [Hx [Hchain _]].
    now split. }
  split; [split |].
  - intros [depth Hr]. exact (Hsound depth z Hr).
  - intros [Hz Hchain]. exists (S (Z.to_nat z)).
    rewrite (level_chain table c (Z.to_nat z) env Hchain) by lia.
    simpl. f_equal. lia.
  - intros depth depth' z' Hr Hr'.
    destruct (Hsound depth z Hr) as [Hz Hchain].
    destruct (Hsound depth' z' Hr') as [Hz' Hchain'].
    pose proof (chain_functional table c _ _ Hchain Hchain'). lia.
Qed.

(** X17: [level] only reads: whatever it returns or raises, the table of
    categories is as it was; and it raises nothing but the recursion error
    and the missing-row error, the parent being unset only where the
    method has already returned 0. *)
Theorem level_only_reads
    (table : gmap Z Category.t) (c : Category.t) (depth : nat) (env : Env) :
  after (Category.level depth c env table) = table /\
  forall e : Exception,
    result (Category.level depth c env table) = Raises e ->
    e = RecursionError \/ e = DoesNotExist.
Proof.
  revert c. induction depth as [| depth IH]; intros c.
  - rewrite level_no_stack. split; [reflexivity |].
    intros e He. injection He as He. now left.
  - destruct (Category.parent_id c) as [pk |] eqn:Hc.
    + destruct (table !! pk) as [p |] eqn:Hp.
      * rewrite (level_child depth c p pk env table Hc Hp).
        destruct (IH p) as [Hafter Hraise].
        destruct (Category.level depth p env table) as [[m | e'] t];
          simpl in *.
        -- split; [exact Hafter | intros e He; discriminate].
        -- split; [exact Hafter |].
           intros e He. injection He as He. subst e'. now apply Hraise.
      * rewrite (level_dangling depth c pk env table Hc Hp).
        split; [reflexivity |]. intros e He. injection He as He. now right.
    + rewrite (level_root depth c env table Hc).
      split; [reflexivity | intros e He; discriminate].
Qed.
